(** * ResNet-50 backbone (detection/models/backbones/resnet.py)

    A shallow embedding of the two Keras models of the file, [_Bottleneck]
    and [ResNet50], together with the part of the TensorFlow / Keras layer
    library they call.  The numerical kernels of the library (convolution,
    normalization, pooling, [relu], [+]) are an interface, [Backend].  Its
    instance [ShapeBackend] interprets every tensor by its static shape,
    following the shape rules of the library, and [Shaped] singles out the
    backends that obey these rules: the models run on them as they run on
    shapes ([sim_ResNet50_call], [sim_Bottleneck_call]).  The running
    statistics of the normalization layers and the learning phase of Keras
    are threaded explicitly through every call.

    The file has the model first (Python results, layers, the two classes,
    the shape backend), then the vocabulary of the properties, then the
    lemmas and the properties themselves. *)

From Stdlib Require Import ZArith Lia.
From stdpp Require Import base option list strings gmap.

Open Scope Z_scope.

(** ** Python exceptions and fallible results *)

Inductive exn : Set :=
  | ValueError
  | TypeError
  | ZeroDivisionError
  | IndexError
  | AttributeError
  | InvalidArgumentError.

Inductive result (A : Type) : Type :=
  | Ok (a : A)
  | Raise (e : exn).
Arguments Ok {A} a.
Arguments Raise {A} e.

#[global] Instance result_ret : MRet result := fun _ a => Ok a.
#[global] Instance result_bind : MBind result := fun _ _ f r =>
  match r with
  | Ok a => f a
  | Raise e => Raise e
  end.

#[global] Instance result_fmap : FMap result := fun _ _ f r =>
  match r with
  | Ok a => Ok (f a)
  | Raise e => Raise e
  end.

(** ** Layers of [tf.keras.layers] used by the file *)

Inductive Padding : Set := valid | same.

Record Conv2D : Set := mkConv2D {
  filters : Z;
  kernel_size : Z * Z;
  strides : Z * Z;
  padding : Padding;
  kernel_initializer : string;
  conv_name : string }.

Record BatchNormalization : Set := mkBatchNormalization {
  bn_name : string }.

Record MaxPooling2D : Set := mkMaxPooling2D {
  pool_size : Z * Z;
  pool_strides : Z * Z;
  pool_padding : Padding }.

(** The constructors, with the keyword arguments the file leaves out given as
    [None] and resolved to the library's defaults ([strides=(1, 1)],
    [padding='valid']). *)
Module layers.

Definition Conv2D (filters : Z) (kernel_size : Z * Z)
    (strides : option (Z * Z)) (padding : option Padding)
    (kernel_initializer name : string) : Conv2D :=
  mkConv2D filters kernel_size (default (1, 1) strides)
           (default valid padding) kernel_initializer name.

Definition BatchNormalization (name : string) : BatchNormalization :=
  mkBatchNormalization name.

Definition MaxPooling2D (pool_size : Z * Z) (strides : Z * Z)
    (padding : Padding) : MaxPooling2D :=
  mkMaxPooling2D pool_size strides padding.

End layers.

(** ** The numerical backend

    What a layer computes on a tensor is the library's business.  A
    convolution is identified by its layer record (its kernel belongs to the
    layer); a normalization layer normalizes with the statistics of the batch
    when [training] and with its running statistics otherwise.  The running
    statistics of a layer are represented by the batches that were folded
    into them, oldest first. *)
Class Backend : Type := {
  Tensor : Type;
  conv2d : Conv2D → Tensor → result Tensor;
  batch_normalization :
    BatchNormalization → bool → list Tensor → Tensor → result Tensor;
  max_pooling2d : MaxPooling2D → Tensor → result Tensor;
  nn_relu : Tensor → result Tensor;
  tensor_add : Tensor → Tensor → result Tensor }.

(** ** Keras state: the learning phase and the running statistics *)

Record Keras `{Backend} : Type := mkKeras {
  learning_phase : bool;
  moving_stats : gmap string (list Tensor) }.

Definition M `{Backend} (A : Type) : Type := Keras → result (A * Keras).

#[global] Instance M_ret `{Backend} : MRet M := fun _ a st => Ok (a, st).
#[global] Instance M_bind `{Backend} : MBind M := fun _ _ f m st =>
  match m st with
  | Ok (a, st') => f a st'
  | Raise e => Raise e
  end.

Definition lift `{Backend} {A} (r : result A) : M A := fun st =>
  match r with
  | Ok a => Ok (a, st)
  | Raise e => Raise e
  end.

Definition running_stats `{Backend} (st : Keras) (name : string) : list Tensor :=
  default [] (moving_stats st !! name).

(** Folding a batch into the running statistics of the layer [name]. *)
Definition assign_moving_average `{Backend} (name : string) (batch : Tensor)
    (st : Keras) : Keras :=
  mkKeras _ (learning_phase st)
    (<[name := running_stats st name ++ [batch]]> (moving_stats st)).

(** Calling a layer.  [BatchNormalization.call(inputs, training=None)] falls
    back on the learning phase when it is given no [training] argument, and
    folds the batch into the running statistics exactly when it runs in
    training mode. *)
Definition Conv2D_call `{Backend} (self : Conv2D) (inputs : Tensor) : M Tensor :=
  lift (conv2d self inputs).

Definition MaxPooling2D_call `{Backend} (self : MaxPooling2D) (inputs : Tensor)
    : M Tensor :=
  lift (max_pooling2d self inputs).

Definition BatchNormalization_call `{Backend} (self : BatchNormalization)
    (inputs : Tensor) (training : option bool) : M Tensor := fun st =>
  let training := default (learning_phase st) training in
  let stats := running_stats st (bn_name self) in
  match batch_normalization self training stats inputs with
  | Ok outputs =>
      if training
      then Ok (outputs, assign_moving_average (bn_name self) inputs st)
      else Ok (outputs, st)
  | Raise e => Raise e
  end.

Definition relu `{Backend} (x : Tensor) : M Tensor := lift (nn_relu x).
Definition add `{Backend} (x y : Tensor) : M Tensor := lift (tensor_add x y).

(** Reading an attribute that [__init__] may not have set. *)
Definition getattr `{Backend} {A} (attr : option A) : M A :=
  match attr with
  | Some a => mret a
  | None => lift (Raise AttributeError)
  end.

(** ** [tf.TensorShape]

    A shape is a list of dimensions, [None] for a dimension that is not
    known.  The constructor rejects a negative dimension. *)
Definition Dimension : Set := option Z.

Definition TensorShape (dims : list Dimension) : result (list Dimension) :=
  if forallb (λ d, match d with Some v => 0 <=? v | None => true end) dims
  then Ok dims
  else Raise ValueError.

(** [d // k] on a dimension read out of [as_list()]. *)
Definition floordiv (d : Dimension) (k : Z) : result Dimension :=
  match d with
  | None => Raise TypeError
  | Some v => if k =? 0 then Raise ZeroDivisionError else Ok (Some (v `div` k))
  end.

(** [shape[i]] and [shape[i] = v] for [i >= 0], and [shape[-1] = v]. *)
Definition getitem {A} (l : list A) (i : nat) : result A :=
  match l !! i with
  | Some a => Ok a
  | None => Raise IndexError
  end.

Definition setitem {A} (l : list A) (i : nat) (v : A) : result (list A) :=
  if (i <? length l)%nat then Ok (<[i := v]> l) else Raise IndexError.

Definition setitem_last {A} (l : list A) (v : A) : result (list A) :=
  match l with
  | [] => Raise IndexError
  | _ => Ok (<[pred (length l) := v]> l)
  end.

(** ** class _Bottleneck *)
Module _Bottleneck.

Record t : Set := mk {
  downsampling : bool;
  stride : Z;
  out_channel : Z;
  conv2a : Conv2D;
  bn2a : BatchNormalization;
  conv2b : Conv2D;
  bn2b : BatchNormalization;
  conv2c : Conv2D;
  bn2c : BatchNormalization;
  conv_shortcut : option Conv2D;
  bn_shortcut : option BatchNormalization }.

(** Defaults of the keyword arguments of [__init__]. *)
Definition downsampling_default : bool := false.
Definition stride_default : Z := 1.

Definition __init__ (filters : Z * Z * Z) (block : string)
    (downsampling : bool) (stride : Z) : t :=
  let '(filters1, filters2, filters3) := filters in
  let conv_name_base := ("res" +:+ block) +:+ "_branch" in
  let bn_name_base := ("bn" +:+ block) +:+ "_branch" in
  {| downsampling := downsampling;
     stride := stride;
     out_channel := filters3;
     conv2a := layers.Conv2D filters1 (1, 1) (Some (stride, stride)) None
                 "he_normal" (conv_name_base +:+ "2a");
     bn2a := layers.BatchNormalization (bn_name_base +:+ "2a");
     conv2b := layers.Conv2D filters2 (3, 3) None (Some same)
                 "he_normal" (conv_name_base +:+ "2b");
     bn2b := layers.BatchNormalization (bn_name_base +:+ "2b");
     conv2c := layers.Conv2D filters3 (1, 1) None None
                 "he_normal" (conv_name_base +:+ "2c");
     bn2c := layers.BatchNormalization (bn_name_base +:+ "2c");
     conv_shortcut :=
       if downsampling
       then Some (layers.Conv2D filters3 (1, 1) (Some (stride, stride)) None
                    "he_normal" (conv_name_base +:+ "1"))
       else None;
     bn_shortcut :=
       if downsampling
       then Some (layers.BatchNormalization (bn_name_base +:+ "1"))
       else None |}.

(** Default of the keyword argument of [__call__]. *)
Definition training_default : bool := false.

(** Lines 46-61 of [__call__]: the locals [x] and [shortcut] on reaching the
    addition. *)
Definition branches `{Backend} (self : t) (inputs : Tensor) (training : bool)
    : M (Tensor * Tensor) :=
  x ← Conv2D_call (conv2a self) inputs;
  x ← BatchNormalization_call (bn2a self) x (Some training);
  x ← relu x;

  x ← Conv2D_call (conv2b self) x;
  x ← BatchNormalization_call (bn2b self) x (Some training);
  x ← relu x;

  x ← Conv2D_call (conv2c self) x;
  x ← BatchNormalization_call (bn2c self) x (Some training);

  shortcut ←
    (if downsampling self
     then
       conv_shortcut ← getattr (conv_shortcut self);
       shortcut ← Conv2D_call conv_shortcut inputs;
       bn_shortcut ← getattr (bn_shortcut self);
       BatchNormalization_call bn_shortcut shortcut (Some training)
     else mret inputs);
  mret (x, shortcut).

(** [training] is [None] when the caller leaves the keyword out. *)
Definition __call__ `{Backend} (self : t) (inputs : Tensor)
    (training : option bool) : M Tensor :=
  let training := default training_default training in
  '(x, shortcut) ← branches self inputs training;
  x ← add x shortcut;
  x ← relu x;
  mret x.

Definition compute_output_shape (self : t) (input_shape : list Dimension)
    : result (list Dimension) :=
  shape ← TensorShape input_shape;

  d ← getitem shape 1; d ← floordiv d (stride self);
  shape ← setitem shape 1 d;
  d ← getitem shape 2; d ← floordiv d (stride self);
  shape ← setitem shape 2 d;
  shape ← setitem_last shape (Some (out_channel self));
  TensorShape shape.

End _Bottleneck.

(** ** class ResNet50 *)
Module ResNet50.

Record t : Set := mk {
  conv1 : Conv2D;
  bn_conv1 : BatchNormalization;
  max_pool : MaxPooling2D;
  res2a : _Bottleneck.t; res2b : _Bottleneck.t; res2c : _Bottleneck.t;
  res3a : _Bottleneck.t; res3b : _Bottleneck.t; res3c : _Bottleneck.t;
  res3d : _Bottleneck.t;
  res4a : _Bottleneck.t; res4b : _Bottleneck.t; res4c : _Bottleneck.t;
  res4d : _Bottleneck.t; res4e : _Bottleneck.t; res4f : _Bottleneck.t;
  res5a : _Bottleneck.t; res5b : _Bottleneck.t; res5c : _Bottleneck.t;
  out_channel : Z * Z * Z * Z }.

Definition __init__ : t :=
  let d := _Bottleneck.downsampling_default in
  let s := _Bottleneck.stride_default in
  {| conv1 := layers.Conv2D 64 (7, 7) (Some (2, 2)) (Some same)
                "he_normal" "conv1";
     bn_conv1 := layers.BatchNormalization "bn_conv1";
     max_pool := layers.MaxPooling2D (3, 3) (2, 2) same;

     res2a := _Bottleneck.__init__ (64, 64, 256) "2a" true 1;
     res2b := _Bottleneck.__init__ (64, 64, 256) "2b" d s;
     res2c := _Bottleneck.__init__ (64, 64, 256) "2c" d s;

     res3a := _Bottleneck.__init__ (128, 128, 512) "3a" true 2;
     res3b := _Bottleneck.__init__ (128, 128, 512) "3b" d s;
     res3c := _Bottleneck.__init__ (128, 128, 512) "3c" d s;
     res3d := _Bottleneck.__init__ (128, 128, 512) "3d" d s;

     res4a := _Bottleneck.__init__ (256, 256, 1024) "4a" true 2;
     res4b := _Bottleneck.__init__ (256, 256, 1024) "4b" d s;
     res4c := _Bottleneck.__init__ (256, 256, 1024) "4c" d s;
     res4d := _Bottleneck.__init__ (256, 256, 1024) "4d" d s;
     res4e := _Bottleneck.__init__ (256, 256, 1024) "4e" d s;
     res4f := _Bottleneck.__init__ (256, 256, 1024) "4f" d s;

     res5a := _Bottleneck.__init__ (512, 512, 2048) "5a" true 2;
     res5b := _Bottleneck.__init__ (512, 512, 2048) "5b" d s;
     res5c := _Bottleneck.__init__ (512, 512, 2048) "5c" d s;

     out_channel := (256, 512, 1024, 2048) |}.

(** Default of the keyword argument of [__call__]. *)
Definition training_default : bool := true.

(** The normalization layer of the stem is called without a [training]
    argument (line 118); every bottleneck unit is passed [training]. *)
Definition __call__ `{Backend} (self : t) (inputs : Tensor)
    (training : option bool) : M (Tensor * Tensor * Tensor * Tensor) :=
  let training := default training_default training in
  x ← Conv2D_call (conv1 self) inputs;
  x ← BatchNormalization_call (bn_conv1 self) x None;
  x ← relu x;
  x ← MaxPooling2D_call (max_pool self) x;

  x ← _Bottleneck.__call__ (res2a self) x (Some training);
  x ← _Bottleneck.__call__ (res2b self) x (Some training);
  x ← _Bottleneck.__call__ (res2c self) x (Some training);
  let C2 := x in

  x ← _Bottleneck.__call__ (res3a self) x (Some training);
  x ← _Bottleneck.__call__ (res3b self) x (Some training);
  x ← _Bottleneck.__call__ (res3c self) x (Some training);
  x ← _Bottleneck.__call__ (res3d self) x (Some training);
  let C3 := x in

  x ← _Bottleneck.__call__ (res4a self) x (Some training);
  x ← _Bottleneck.__call__ (res4b self) x (Some training);
  x ← _Bottleneck.__call__ (res4c self) x (Some training);
  x ← _Bottleneck.__call__ (res4d self) x (Some training);
  x ← _Bottleneck.__call__ (res4e self) x (Some training);
  x ← _Bottleneck.__call__ (res4f self) x (Some training);
  let C4 := x in

  x ← _Bottleneck.__call__ (res5a self) x (Some training);
  x ← _Bottleneck.__call__ (res5b self) x (Some training);
  x ← _Bottleneck.__call__ (res5c self) x (Some training);
  let C5 := x in

  mret (C2, C3, C4, C5).

Definition compute_output_shape (self : t) (input_shape : list Dimension)
    : result (list Dimension * list Dimension * list Dimension * list Dimension) :=
  shape ← TensorShape input_shape;
  match shape with
  | [batch; H; W; C] =>
      let '(c2, c3, c4, c5) := out_channel self in
      h ← floordiv H 4; w ← floordiv W 4;
      C2_shape ← TensorShape [batch; h; w; Some c2];
      h ← floordiv H 8; w ← floordiv W 8;
      C3_shape ← TensorShape [batch; h; w; Some c3];
      h ← floordiv H 16; w ← floordiv W 16;
      C4_shape ← TensorShape [batch; h; w; Some c4];
      h ← floordiv H 32; w ← floordiv W 32;
      C5_shape ← TensorShape [batch; h; w; Some c5];
      mret (C2_shape, C3_shape, C4_shape, C5_shape)
  | _ => Raise ValueError
  end.

End ResNet50.

(** ** The shape backend

    Every tensor is interpreted by its shape, a list of known dimensions.
    The rules are the library's: [conv_output_length] of
    [keras.utils.conv_utils] for convolution and pooling, an unchanged shape
    for normalization and [relu], NumPy broadcasting for [+].

    These are the library's rules on tensors of four axes whose dimensions are
    all positive.  What a layer does with an empty tensor, with an input of
    no channels or with another number of axes is decided by checks of the
    library that differ between its versions and that [window_shape] does not
    follow: it computes a shape for an empty tensor and refuses every rank
    but four. *)

Definition conv_output_length (input_length filter_size : Z)
    (padding : Padding) (stride : Z) : Z :=
  let output_length :=
    match padding with
    | same => input_length
    | valid => input_length - filter_size + 1
    end in
  (output_length + stride - 1) `div` stride.

Definition window_shape (size strides : Z * Z) (padding : Padding)
    (channels : option Z) (shape : list Z) : result (list Z) :=
  match shape with
  | [n; h; w; c] =>
      let '(kh, kw) := size in
      let '(sh, sw) := strides in
      if (sh <=? 0) || (sw <=? 0) then Raise ValueError else
      let h' := conv_output_length h kh padding sh in
      let w' := conv_output_length w kw padding sw in
      if (h' <? 0) || (w' <? 0) then Raise InvalidArgumentError else
      Ok [n; h'; w'; default c channels]
  | _ => Raise ValueError
  end.

Definition conv2d_shape (l : Conv2D) (shape : list Z) : result (list Z) :=
  window_shape (kernel_size l) (strides l) (padding l) (Some (filters l)) shape.

Definition max_pooling2d_shape (l : MaxPooling2D) (shape : list Z)
    : result (list Z) :=
  window_shape (pool_size l) (pool_strides l) (pool_padding l) None shape.

(** Broadcasting of two shapes, innermost dimension first. *)
Fixpoint broadcast_rev (a b : list Z) : result (list Z) :=
  match a, b with
  | [], _ => Ok b
  | _, [] => Ok a
  | x :: a', y :: b' =>
      r ← broadcast_rev a' b';
      if x =? y then Ok (x :: r)
      else if x =? 1 then Ok (y :: r)
      else if y =? 1 then Ok (x :: r)
      else Raise InvalidArgumentError
  end.

Definition broadcast (a b : list Z) : result (list Z) :=
  r ← broadcast_rev (reverse a) (reverse b); Ok (reverse r).

#[global] Instance ShapeBackend : Backend := {|
  Tensor := list Z;
  conv2d := conv2d_shape;
  batch_normalization := λ _ _ _ shape, Ok shape;
  max_pooling2d := max_pooling2d_shape;
  nn_relu := λ shape, Ok shape;
  tensor_add := broadcast |}.

(** A freshly constructed model: no batch seen, inference learning phase. *)
Definition fresh `{Backend} : Keras := mkKeras _ false ∅.

(** * Specification vocabulary

    Definitions used to state the properties: ceilings, shapes of tensors as
    [TensorShape]s, the unit described as a composition of stages, the naming
    scheme of the layers, and the relations on Keras states. *)

(** ** Shapes *)

(** The ceiling of [a / b] for a positive [b] (see [ceil_div_spec]). *)
Definition ceil_div (a b : Z) : Z := (a + b - 1) `div` b.

(** [x.shape.as_list()] of a tensor: every dimension is known. *)
Definition as_list (shape : list Z) : list Dimension := Some <$> shape.

(** A dimension that [tf.TensorShape] accepts. *)
Definition known_nonneg (d : Dimension) : Prop := ∀ v, d = Some v → 0 ≤ v.

(** ** The unit as a composition of stages

    The definitions of this section follow the description of the unit:
    stages composed left to right with [>=>]. *)

Section composition.
Context `{Backend}.

Definition kleisli {A B C} (f : A → M B) (g : B → M C) : A → M C :=
  λ a, b ← f a; g b.
Infix ">=>" := kleisli (at level 60, right associativity).

(** A square convolution with He-normal initial weights. *)
Definition convolution (name : string) (filters kernel stride : Z)
    (padding : Padding) : Tensor → M Tensor :=
  Conv2D_call
    {| filters := filters; kernel_size := (kernel, kernel);
       strides := (stride, stride); padding := padding;
       kernel_initializer := "he_normal"; conv_name := name |}.

Definition normalization (name : string) (training : bool)
    : Tensor → M Tensor :=
  λ x, BatchNormalization_call {| bn_name := name |} x (Some training).

Definition spec_main_path (filters : Z * Z * Z) (block : string) (stride : Z)
    (training : bool) : Tensor → M Tensor :=
  let '(filters1, filters2, filters3) := filters in
  convolution ("res" +:+ block +:+ "_branch2a") filters1 1 stride valid
  >=> normalization ("bn" +:+ block +:+ "_branch2a") training
  >=> relu
  >=> convolution ("res" +:+ block +:+ "_branch2b") filters2 3 1 same
  >=> normalization ("bn" +:+ block +:+ "_branch2b") training
  >=> relu
  >=> convolution ("res" +:+ block +:+ "_branch2c") filters3 1 1 valid
  >=> normalization ("bn" +:+ block +:+ "_branch2c") training.

Definition spec_shortcut_path (filters : Z * Z * Z) (block : string)
    (projection : bool) (stride : Z) (training : bool) : Tensor → M Tensor :=
  if projection
  then convolution ("res" +:+ block +:+ "_branch1") filters.2 1 stride valid
       >=> normalization ("bn" +:+ block +:+ "_branch1") training
  else mret.

Definition spec_bottleneck (filters : Z * Z * Z) (block : string)
    (projection : bool) (stride : Z) (training : bool) (x : Tensor)
    : M Tensor :=
  main ← spec_main_path filters block stride training x;
  shortcut ← spec_shortcut_path filters block projection stride training x;
  sum ← add main shortcut;
  relu sum.

(** The unit without projection: [relu (main_path x + x)]. *)
Definition spec_identity_bottleneck (filters : Z * Z * Z) (block : string)
    (stride : Z) (training : bool) (x : Tensor) : M Tensor :=
  main ← spec_main_path filters block stride training x;
  sum ← add main x;
  relu sum.
End composition.

(** ** Names of the layers *)

(** The convolution / normalization pairs of a unit, by name. *)
Definition Bottleneck_layer_names (self : _Bottleneck.t) : list (string * string) :=
  [ (conv_name (_Bottleneck.conv2a self), bn_name (_Bottleneck.bn2a self));
    (conv_name (_Bottleneck.conv2b self), bn_name (_Bottleneck.bn2b self));
    (conv_name (_Bottleneck.conv2c self), bn_name (_Bottleneck.bn2c self)) ]
  ++ match _Bottleneck.conv_shortcut self, _Bottleneck.bn_shortcut self with
     | Some conv, Some bn => [(conv_name conv, bn_name bn)]
     | _, _ => []
     end.

(** All the layer names of a unit: convolutions, then normalizations. *)
Definition Bottleneck_names (self : _Bottleneck.t) : list string :=
  (Bottleneck_layer_names self).*1 ++ (Bottleneck_layer_names self).*2.

(** The sixteen units of the backbone, in the order they are run. *)
Definition ResNet50_units (self : ResNet50.t) : list _Bottleneck.t :=
  [ ResNet50.res2a self; ResNet50.res2b self; ResNet50.res2c self;
    ResNet50.res3a self; ResNet50.res3b self; ResNet50.res3c self;
    ResNet50.res3d self;
    ResNet50.res4a self; ResNet50.res4b self; ResNet50.res4c self;
    ResNet50.res4d self; ResNet50.res4e self; ResNet50.res4f self;
    ResNet50.res5a self; ResNet50.res5b self; ResNet50.res5c self ].

(** The units of stages 3, 4 and 5, and shape inference through a stack of
    units, each fed the shape inferred by the one before. *)
Definition ResNet50_stage3 (self : ResNet50.t) : list _Bottleneck.t :=
  [ ResNet50.res3a self; ResNet50.res3b self; ResNet50.res3c self;
    ResNet50.res3d self ].

Definition ResNet50_stage4 (self : ResNet50.t) : list _Bottleneck.t :=
  [ ResNet50.res4a self; ResNet50.res4b self; ResNet50.res4c self;
    ResNet50.res4d self; ResNet50.res4e self; ResNet50.res4f self ].

Definition ResNet50_stage5 (self : ResNet50.t) : list _Bottleneck.t :=
  [ ResNet50.res5a self; ResNet50.res5b self; ResNet50.res5c self ].

Definition chain_compute_output_shape (units : list _Bottleneck.t)
    (input_shape : list Dimension) : result (list Dimension) :=
  foldl (λ acc unit, shape ← acc; _Bottleneck.compute_output_shape unit shape)
        (Ok input_shape) units.

(** The named convolution / normalization pairs of the backbone. *)
Definition ResNet50_layer_names (self : ResNet50.t) : list (string * string) :=
  (conv_name (ResNet50.conv1 self), bn_name (ResNet50.bn_conv1 self))
  :: concat (Bottleneck_layer_names <$> ResNet50_units self).

(** The naming scheme, from the block identifier. *)
Definition naming_scheme (b : string) (projection : bool) : list (string * string) :=
  [ ("res" +:+ b +:+ "_branch2a", "bn" +:+ b +:+ "_branch2a");
    ("res" +:+ b +:+ "_branch2b", "bn" +:+ b +:+ "_branch2b");
    ("res" +:+ b +:+ "_branch2c", "bn" +:+ b +:+ "_branch2c") ]
  ++ (if projection
      then [("res" +:+ b +:+ "_branch1", "bn" +:+ b +:+ "_branch1")]
      else []).

(** The block identifiers of the backbone; the first unit of each stage has
    the projection. *)
Definition block_identifiers : list (string * bool) :=
  [ ("2a", true); ("2b", false); ("2c", false);
    ("3a", true); ("3b", false); ("3c", false); ("3d", false);
    ("4a", true); ("4b", false); ("4c", false); ("4d", false);
    ("4e", false); ("4f", false);
    ("5a", true); ("5b", false); ("5c", false) ].

(** ** Running statistics *)

(** A model whose Keras learning phase has been set to 1. *)
Definition fresh_learning `{Backend} : Keras := mkKeras _ true ∅.

(** The running statistics of the layer [name] once a call has returned. *)
Definition running_stats_after `{Backend} {A} (r : result (A * Keras))
    (name : string) : result (list Tensor) :=
  (λ a_st, running_stats a_st.2 name) <$> r.

(** The normalization layers of a unit, in the order they are called. *)
Definition Bottleneck_bn_names (self : _Bottleneck.t) : list string :=
  (Bottleneck_layer_names self).*2.

Definition ResNet50_bn_names (self : ResNet50.t) : list string :=
  concat (Bottleneck_bn_names <$> ResNet50_units self).

Definition occurrences (name : string) (calls : list string) : nat :=
  length (filter (λ n, n = name) calls).

(** [st'] is [st] after the normalization layers [calls] have each folded a
    batch into their statistics. *)
Definition grows `{Backend} (calls : list string) (st st' : Keras) : Prop :=
  learning_phase st' = learning_phase st
  ∧ ∀ name, ∃ batches,
      running_stats st' name = running_stats st name ++ batches
      ∧ length batches = occurrences name calls.

(** ** Backends that obey the shape rules *)

Class Shaped (B : Backend) : Type := {
  shape : @Tensor B → list Z;
  conv2d_shaped l x :
    shape <$> conv2d l x = conv2d_shape l (shape x);
  batch_normalization_shaped l training stats x :
    shape <$> batch_normalization l training stats x = Ok (shape x);
  max_pooling2d_shaped l x :
    shape <$> max_pooling2d l x = max_pooling2d_shape l (shape x);
  nn_relu_shaped x :
    shape <$> nn_relu x = Ok (shape x);
  tensor_add_shaped x y :
    shape <$> tensor_add x y = broadcast (shape x) (shape y) }.

(** The shape backend is itself such a backend. *)
Definition result_fmap_id {A} (r : result A) : (λ a, a) <$> r = r :=
  match r with
  | Ok _ => eq_refl
  | Raise _ => eq_refl
  end.

#[global] Instance ShapeBackend_Shaped : Shaped ShapeBackend := {|
  shape := λ x : @Tensor ShapeBackend, (x : list Z);
  conv2d_shaped l x := result_fmap_id (conv2d_shape l x);
  batch_normalization_shaped l training stats x := eq_refl;
  max_pooling2d_shaped l x := result_fmap_id (max_pooling2d_shape l x);
  nn_relu_shaped x := eq_refl;
  tensor_add_shaped x y := result_fmap_id (broadcast x y) |}.

(** ** The demonstration entry point (lines 155-164)

    [tf.random_normal] is a parameter; the lines printed are returned, each
    a label and [x.shape.as_list()].  The model is called without the mode
    argument. *)
Definition main {B : Backend} `{!Shaped B} (random_normal : list Z → Tensor)
    : M (list (string * list Z)) :=
  let imgs := random_normal [2; 1024; 1024; 3] in

  let model := ResNet50.__init__ in
  '(C2, C3, C4, C5) ← ResNet50.__call__ model imgs None;
  mret [ ("C2 shape:", shape C2); ("C3 shape:", shape C3);
         ("C4 shape:", shape C4); ("C5 shape:", shape C5) ].

(** The four shapes returned by the analytic operation are those of the
    tensors returned by the forward pass. *)
Definition inference_agrees {B : Backend} `{!Shaped B} (x : Tensor)
    (training : option bool) (st : Keras) : Prop :=
  ∀ C2 C3 C4 C5 st',
    ResNet50.__call__ ResNet50.__init__ x training st
    = Ok ((C2, C3, C4, C5), st') →
    ResNet50.compute_output_shape ResNet50.__init__ (as_list (shape x))
    = Ok (as_list (shape C2), as_list (shape C3), as_list (shape C4),
          as_list (shape C5)).

Section shape_abstraction.
Context {B : Backend} `{!Shaped B}.

Definition shape_state (st : @Keras B) : @Keras ShapeBackend :=
  @mkKeras ShapeBackend (learning_phase st)
    (fmap (M := list) shape <$> moving_stats st).

(** [m'] runs on shapes as [m] runs on tensors. *)
Definition sim {A A'} (R : A → A' → Prop)
    (m : @M B A) (m' : @M ShapeBackend A') : Prop :=
  ∀ st,
    match m st, m' (shape_state st) with
    | Ok (a, st1), Ok (a', st1') => R a a' ∧ st1' = shape_state st1
    | Raise e, Raise e' => e = e'
    | _, _ => False
    end.

Definition has_shape (x : @Tensor B) (x' : list Z) : Prop := shape x = x'.

End shape_abstraction.

(** * Lemmas and theorems *)

(** ** Smoke tests *)

(** The demonstration at the end of the file. *)
Example demo_shapes :
  fst <$> ResNet50.__call__ ResNet50.__init__ [2; 1024; 1024; 3] None fresh
  = Ok ([2; 256; 256; 256], [2; 128; 128; 512], [2; 64; 64; 1024],
        [2; 32; 32; 2048]).
Proof. vm_compute. reflexivity. Qed.

(** Shape inference raises on an unknown height and on a shape that does not
    have four axes. *)
Example compute_output_shape_unknown_height :
  ResNet50.compute_output_shape ResNet50.__init__
    [Some 2; None; Some 64; Some 3] = Raise TypeError.
Proof. reflexivity. Qed.

Example compute_output_shape_three_axes :
  ResNet50.compute_output_shape ResNet50.__init__ [Some 64; Some 64; Some 3]
  = Raise ValueError.
Proof. reflexivity. Qed.

(** On a shape with three axes the unit's shape inference overwrites the
    last axis, which it has just divided. *)
Example Bottleneck_compute_output_shape_three_axes :
  _Bottleneck.compute_output_shape
    (_Bottleneck.__init__ (128, 128, 512) "3a" true 2) [Some 8; Some 6; Some 4]
  = Ok [Some 8; Some 3; Some 512].
Proof. reflexivity. Qed.

(** A unit without projection run on an input whose channel count is not its
    third filter count is misconfigured; no error is raised when the sum
    happens to broadcast, and the result then has the channels of the input. *)
Example misconfigured_unit_broadcasts :
  fst <$> _Bottleneck.__call__ (_Bottleneck.__init__ (1, 1, 1) "x" false 1)
            [2; 4; 4; 5] None fresh
  = Ok [2; 4; 4; 5].
Proof. vm_compute. reflexivity. Qed.

Example misconfigured_unit_raises :
  fst <$> _Bottleneck.__call__ (_Bottleneck.__init__ (64, 64, 256) "x" false 1)
            [2; 4; 4; 64] None fresh
  = Raise InvalidArgumentError.
Proof. vm_compute. reflexivity. Qed.

(** ** Arithmetic of output lengths *)

Lemma ceil_div_spec a b : 0 < b → b * (ceil_div a b - 1) < a ≤ b * ceil_div a b.
Proof.
  intros Hb. unfold ceil_div.
  pose proof (Z.div_mod (a + b - 1) b ltac:(lia)) as Hdm.
  pose proof (Z.mod_pos_bound (a + b - 1) b Hb) as Hm.
  lia.
Qed.

Lemma ceil_div_unique a b q : 0 < b → b * (q - 1) < a ≤ b * q → ceil_div a b = q.
Proof.
  intros Hb Hq. pose proof (ceil_div_spec a b Hb) as Hc. nia.
Qed.

Lemma ceil_div_nonneg a b : 0 < b → 0 ≤ a → 0 ≤ ceil_div a b.
Proof. intros Hb Ha. pose proof (ceil_div_spec a b Hb). nia. Qed.

Lemma ceil_div_1 a : ceil_div a 1 = a.
Proof. apply ceil_div_unique; lia. Qed.

Lemma ceil_div_ceil_div a b c :
  0 < b → 0 < c → ceil_div (ceil_div a b) c = ceil_div a (b * c).
Proof.
  intros Hb Hc. symmetry. apply ceil_div_unique; [lia|].
  pose proof (ceil_div_spec a b Hb).
  pose proof (ceil_div_spec (ceil_div a b) c Hc). nia.
Qed.

Lemma ceil_div_exact a b : 0 < b → a `mod` b = 0 → ceil_div a b = a `div` b.
Proof.
  intros Hb Hm. apply ceil_div_unique; [done|].
  pose proof (Z.div_mod a b ltac:(lia)). lia.
Qed.

Lemma ceil_div_floor_iff a b : 0 < b → ceil_div a b = a `div` b ↔ a `mod` b = 0.
Proof.
  intros Hb. split; [|by apply ceil_div_exact].
  intros He. pose proof (ceil_div_spec a b Hb) as Hc. rewrite He in Hc.
  pose proof (Z.div_mod a b ltac:(lia)).
  pose proof (Z.mod_pos_bound a b Hb). lia.
Qed.

Lemma ceil_div_exact_32 a k :
  a `mod` 32 = 0 → 0 < k → 32 `mod` k = 0 → ceil_div a k = a `div` k.
Proof.
  intros Ha Hk Hk32. apply ceil_div_exact; [done|].
  apply Z.mod_divide; [lia|].
  transitivity 32; apply Z.mod_divide; (lia || done).
Qed.

Lemma conv_output_length_same n k s : conv_output_length n k same s = ceil_div n s.
Proof. reflexivity. Qed.

Lemma conv_output_length_valid_1 n s : conv_output_length n 1 valid s = ceil_div n s.
Proof. unfold conv_output_length, ceil_div. f_equal. lia. Qed.

(** ** Running the layers on shapes *)

Ltac unfold_M :=
  unfold mbind, M_bind, mret, M_ret, lift, result_bind, result_ret in *.

Lemma bind_Ok `{Backend} {A B} (m : M A) (f : A → M B) st a st' :
  m st = Ok (a, st') → (x ← m; f x) st = f a st'.
Proof. intros Hm. unfold_M. by rewrite Hm. Qed.

Lemma bind_inv `{Backend} {A B} (m : M A) (f : A → M B) st b st' :
  (x ← m; f x) st = Ok (b, st') →
  ∃ a st1, m st = Ok (a, st1) ∧ f a st1 = Ok (b, st').
Proof.
  unfold_M. destruct (m st) as [[a st1]|e]; [|done]. eauto.
Qed.

Lemma window_shape_Ok kh kw s pad ch n h w c :
  0 < s →
  0 ≤ conv_output_length h kh pad s →
  0 ≤ conv_output_length w kw pad s →
  window_shape (kh, kw) (s, s) pad ch [n; h; w; c]
  = Ok [n; conv_output_length h kh pad s; conv_output_length w kw pad s;
        default c ch].
Proof.
  intros Hs Hh Hw. unfold window_shape.
  replace (s <=? 0) with false by lia.
  replace (_ <? 0) with false by lia.
  replace (_ <? 0) with false by lia.
  reflexivity.
Qed.

Lemma BatchNormalization_call_shape (l : BatchNormalization) (x : list Z)
    (training : option bool) (st : Keras) :
  BatchNormalization_call l x training st
  = Ok (x, if default (learning_phase st) training
           then assign_moving_average (bn_name l) x st else st).
Proof.
  unfold BatchNormalization_call. cbn. by destruct (default _ training).
Qed.

Lemma broadcast_refl (a : list Z) : broadcast a a = Ok a.
Proof.
  unfold broadcast.
  assert (∀ l : list Z, broadcast_rev l l = Ok l) as Hrev.
  { induction l as [|x l IH]; [done|]. cbn. rewrite IH. cbn.
    by rewrite Z.eqb_refl. }
  rewrite Hrev. cbn. by rewrite reverse_involutive.
Qed.

(** ** Running a bottleneck unit on shapes *)

Section bottleneck_shapes.
Variables (filters1 filters2 filters3 : Z) (block : string).
Variables (downsampling : bool) (stride : Z).

Let self : _Bottleneck.t :=
  _Bottleneck.__init__ (filters1, filters2, filters3) block downsampling stride.

(** Shape of the main path, and of the shortcut path, at the addition. *)
Lemma branches_shape (n h w c : Z) (training : bool) (st : Keras) :
  0 < stride → 0 ≤ h → 0 ≤ w →
  ∃ st',
    _Bottleneck.branches self [n; h; w; c] training st
    = Ok (([n; ceil_div h stride; ceil_div w stride; filters3],
           if downsampling
           then [n; ceil_div h stride; ceil_div w stride; filters3]
           else [n; h; w; c]), st').
Proof.
  intros Hs Hh Hw.
  pose proof (ceil_div_nonneg h stride Hs Hh) as Hh'.
  pose proof (ceil_div_nonneg w stride Hs Hw) as Hw'.
  unfold _Bottleneck.branches, self, _Bottleneck.__init__,
    Conv2D_call, relu, getattr, layers.Conv2D, layers.BatchNormalization.
  destruct downsampling, training;
  repeat first
    [ rewrite BatchNormalization_call_shape
    | rewrite window_shape_Ok
        by (rewrite ?conv_output_length_valid_1, ?conv_output_length_same,
              ?ceil_div_1; lia)
    | progress (unfold_M; unfold conv2d_shape;
                cbn -[conv_output_length window_shape]) ];
  rewrite ?conv_output_length_valid_1, ?conv_output_length_same, ?ceil_div_1;
  eauto.
Qed.

Lemma call_unfold (x : list Z) (training : option bool) (st : Keras) :
  _Bottleneck.__call__ self x training st
  = match _Bottleneck.branches self x
            (default _Bottleneck.training_default training) st with
    | Ok ((main, shortcut), st') =>
        match broadcast main shortcut with
        | Ok y => Ok (y, st')
        | Raise e => Raise e
        end
    | Raise e => Raise e
    end.
Proof.
  unfold _Bottleneck.__call__, add, relu. unfold_M. cbn.
  destruct (_Bottleneck.branches _ _ _ _) as [[[main shortcut] st']|e]; [|done].
  by destruct (broadcast main shortcut).
Qed.

(** A unit with a projection shortcut accepts every input. *)
Lemma call_shape_projection (n h w c : Z) (training : option bool) (st : Keras) :
  downsampling = true → 0 < stride → 0 ≤ h → 0 ≤ w →
  ∃ st',
    _Bottleneck.__call__ self [n; h; w; c] training st
    = Ok ([n; ceil_div h stride; ceil_div w stride; filters3], st').
Proof.
  intros Hd Hs Hh Hw. rewrite call_unfold.
  destruct (branches_shape n h w c
              (default _Bottleneck.training_default training) st)
    as [st' ->]; [done..|].
  rewrite Hd, broadcast_refl. eauto.
Qed.

(** The sum of the two paths of a unit without projection, whatever the
    stride, has the shape of the input when it exists. *)
Lemma broadcast_identity (n h w : Z) (y : list Z) :
  0 < stride → 0 ≤ h → 0 ≤ w →
  broadcast [n; ceil_div h stride; ceil_div w stride; filters3]
            [n; h; w; filters3] = Ok y →
  y = [n; h; w; filters3].
Proof.
  intros Hs Hh Hw.
  pose proof (ceil_div_spec h stride Hs) as Hch.
  pose proof (ceil_div_spec w stride Hs) as Hcw.
  unfold broadcast. cbn. rewrite !Z.eqb_refl. cbn.
  repeat case_match; cbn; try done;
    intros [= <-]; cbn; repeat f_equal; nia.
Qed.

Lemma call_shape_inv (n h w : Z) (training : option bool) (st st' : Keras)
    (y : list Z) :
  downsampling = false → 0 < stride → 0 ≤ h → 0 ≤ w →
  _Bottleneck.__call__ self [n; h; w; filters3] training st = Ok (y, st') →
  y = [n; h; w; filters3].
Proof.
  intros Hd Hs Hh Hw. rewrite call_unfold.
  destruct (branches_shape n h w filters3
              (default _Bottleneck.training_default training) st)
    as [st1 ->]; [done..|].
  rewrite Hd.
  destruct (broadcast _ _) as [y'|e] eqn:Hb; [|done].
  intros [= <- <-]. by eapply broadcast_identity.
Qed.

(** A unit without projection and with stride 1 accepts every input whose
    channel count is its third filter count. *)
Lemma call_shape_identity (n h w : Z) (training : option bool) (st : Keras) :
  downsampling = false → stride = 1 → 0 ≤ h → 0 ≤ w →
  ∃ st',
    _Bottleneck.__call__ self [n; h; w; filters3] training st
    = Ok ([n; h; w; filters3], st').
Proof.
  intros Hd Hs Hh Hw. rewrite call_unfold.
  destruct (branches_shape n h w filters3
              (default _Bottleneck.training_default training) st)
    as [st' ->]; [lia|done..|].
  rewrite Hd, Hs, !ceil_div_1, broadcast_refl. eauto.
Qed.
End bottleneck_shapes.

(** ** Running the backbone on shapes *)

Lemma stem_shape (n h w c : Z) (st : Keras) :
  0 ≤ h → 0 ≤ w →
  ∃ st', ∀ (B : Type) (k : Tensor → M B),
    (x ← Conv2D_call (ResNet50.conv1 ResNet50.__init__) [n; h; w; c];
     x ← BatchNormalization_call (ResNet50.bn_conv1 ResNet50.__init__) x None;
     x ← relu x;
     x ← MaxPooling2D_call (ResNet50.max_pool ResNet50.__init__) x;
     k x) st
    = k [n; ceil_div h 4; ceil_div w 4; 64] st'.
Proof.
  intros Hh Hw.
  pose proof (ceil_div_nonneg h 2 ltac:(lia) Hh).
  pose proof (ceil_div_nonneg w 2 ltac:(lia) Hw).
  pose proof (ceil_div_nonneg (ceil_div h 2) 2 ltac:(lia) ltac:(lia)).
  pose proof (ceil_div_nonneg (ceil_div w 2) 2 ltac:(lia) ltac:(lia)).
  rewrite <- !(ceil_div_ceil_div _ 2 2) by lia.
  unfold Conv2D_call, MaxPooling2D_call, relu.
  destruct (learning_phase st) eqn:Hlp; eexists; intros B k.
  all: repeat first
    [ rewrite BatchNormalization_call_shape
    | rewrite Hlp
    | rewrite window_shape_Ok by (rewrite ?conv_output_length_same; lia)
    | progress (unfold_M; unfold conv2d_shape, max_pooling2d_shape;
                cbn -[conv_output_length window_shape]) ].
  all: rewrite !conv_output_length_same; reflexivity.
Qed.

Ltac step_unit :=
  lazymatch goal with
  | |- context [mbind _ (_Bottleneck.__call__
                  (_Bottleneck.__init__ (?f1, ?f2, ?f3) ?b true ?s)
                  [?n; ?h; ?w; ?c] ?tr) ?st] =>
      let st' := fresh "st" in
      let H := fresh "Hunit" in
      destruct (call_shape_projection f1 f2 f3 b true s n h w c tr st)
        as [st' H]; [done | lia | lia | lia |];
      rewrite (bind_Ok _ _ _ _ _ H), ?ceil_div_1; clear H
  | |- context [mbind _ (_Bottleneck.__call__
                  (_Bottleneck.__init__ (?f1, ?f2, ?f3) ?b false ?s)
                  [?n; ?h; ?w; ?f3] ?tr) ?st] =>
      let st' := fresh "st" in
      let H := fresh "Hunit" in
      destruct (call_shape_identity f1 f2 f3 b false s n h w tr st)
        as [st' H]; [done | done | lia | lia |];
      rewrite (bind_Ok _ _ _ _ _ H); clear H
  end.

(** The forward pass accepts every input with four axes and yields the four
    feature maps at the ceilings of [h/4], [h/8], [h/16] and [h/32]. *)
Lemma ResNet50_call_shape (n h w c : Z) (training : option bool) (st : Keras) :
  0 ≤ h → 0 ≤ w →
  ∃ st',
    ResNet50.__call__ ResNet50.__init__ [n; h; w; c] training st
    = Ok (([n; ceil_div h 4; ceil_div w 4; 256],
           [n; ceil_div h 8; ceil_div w 8; 512],
           [n; ceil_div h 16; ceil_div w 16; 1024],
           [n; ceil_div h 32; ceil_div w 32; 2048]), st').
Proof.
  intros Hh Hw. unfold ResNet50.__call__.
  pose proof (ceil_div_nonneg h 4 ltac:(lia) Hh).
  pose proof (ceil_div_nonneg w 4 ltac:(lia) Hw).
  pose proof (ceil_div_nonneg h 8 ltac:(lia) Hh).
  pose proof (ceil_div_nonneg w 8 ltac:(lia) Hw).
  pose proof (ceil_div_nonneg h 16 ltac:(lia) Hh).
  pose proof (ceil_div_nonneg w 16 ltac:(lia) Hw).
  pose proof (ceil_div_nonneg h 32 ltac:(lia) Hh).
  pose proof (ceil_div_nonneg w 32 ltac:(lia) Hw).
  set (tr := Some (default ResNet50.training_default training)).
  destruct (stem_shape n h w c st Hh Hw) as [st0 Hstem].
  rewrite Hstem. clear Hstem.
  cbn [ResNet50.__init__ ResNet50.res2a ResNet50.res2b ResNet50.res2c
       ResNet50.res3a ResNet50.res3b ResNet50.res3c ResNet50.res3d
       ResNet50.res4a ResNet50.res4b ResNet50.res4c ResNet50.res4d
       ResNet50.res4e ResNet50.res4f
       ResNet50.res5a ResNet50.res5b ResNet50.res5c].
  unfold _Bottleneck.downsampling_default, _Bottleneck.stride_default.
  do 3 step_unit.
  step_unit. rewrite !(ceil_div_ceil_div _ 4 2) by lia. change (4 * 2) with 8.
  do 3 step_unit.
  step_unit. rewrite !(ceil_div_ceil_div _ 8 2) by lia. change (8 * 2) with 16.
  do 5 step_unit.
  step_unit. rewrite !(ceil_div_ceil_div _ 16 2) by lia. change (16 * 2) with 32.
  do 2 step_unit.
  eexists. reflexivity.
Qed.

(** ** The analytic shapes *)

Lemma TensorShape_Ok (dims : list Dimension) :
  Forall (λ d, ∀ v, d = Some v → 0 ≤ v) dims → TensorShape dims = Ok dims.
Proof.
  intros Hd. unfold TensorShape.
  replace (forallb _ dims) with true; [done|].
  symmetry. apply forallb_forall. intros d Hin.
  rewrite Forall_forall in Hd. apply list_elem_of_In in Hin.
  specialize (Hd d Hin). destruct d as [v|]; [|done].
  specialize (Hd v eq_refl). lia.
Qed.

Lemma known_nonneg_Some v : 0 ≤ v → known_nonneg (Some v).
Proof. intros Hv v' [= <-]. done. Qed.

Lemma ResNet50_compute_output_shape_Ok (batch C : Dimension) (H W : Z) :
  known_nonneg batch → known_nonneg C → 0 ≤ H → 0 ≤ W →
  ResNet50.compute_output_shape ResNet50.__init__ [batch; Some H; Some W; C]
  = Ok ([batch; Some (H `div` 4); Some (W `div` 4); Some 256],
        [batch; Some (H `div` 8); Some (W `div` 8); Some 512],
        [batch; Some (H `div` 16); Some (W `div` 16); Some 1024],
        [batch; Some (H `div` 32); Some (W `div` 32); Some 2048]).
Proof.
  intros Hb HC HH HW. unfold ResNet50.compute_output_shape.
  assert (∀ k c, 0 < k → 0 ≤ c →
            TensorShape [batch; Some (H `div` k); Some (W `div` k); Some c]
            = Ok [batch; Some (H `div` k); Some (W `div` k); Some c]) as Hts.
  { intros k c Hk Hc. apply TensorShape_Ok.
    repeat constructor; try done; apply known_nonneg_Some; try done;
      apply Z.div_pos; lia. }
  rewrite TensorShape_Ok
    by (repeat constructor; try done; apply known_nonneg_Some; done).
  cbn -[TensorShape Z.div]. rewrite !Hts by lia. reflexivity.
Qed.

Lemma Bottleneck_compute_output_shape_Ok
    (filters1 filters2 filters3 : Z) (block : string) (downsampling : bool)
    (stride : Z) (batch C : Dimension) (H W : Z) :
  0 < stride → 0 ≤ filters3 →
  known_nonneg batch → known_nonneg C → 0 ≤ H → 0 ≤ W →
  _Bottleneck.compute_output_shape
    (_Bottleneck.__init__ (filters1, filters2, filters3) block downsampling stride)
    [batch; Some H; Some W; C]
  = Ok [batch; Some (H `div` stride); Some (W `div` stride); Some filters3].
Proof.
  intros Hs Hf Hb HC HH HW. unfold _Bottleneck.compute_output_shape.
  rewrite TensorShape_Ok
    by (repeat constructor; try done; apply known_nonneg_Some; done).
  cbn -[TensorShape Z.div]. replace (stride =? 0) with false by lia.
  unfold setitem. cbn -[TensorShape Z.div].
  apply TensorShape_Ok.
  repeat constructor; try done; apply known_nonneg_Some; try done;
    apply Z.div_pos; lia.
Qed.

(** ** Soundness of the shape backend

    A backend whose operations obey the shape rules of the library runs both
    models exactly as the shape backend does, shape for shape and error for
    error. *)

Section shape_soundness.
Context {B : Backend} `{!Shaped B}.

Lemma sim_ret {A A'} (R : A → A' → Prop) a a' :
  R a a' → sim R (mret a) (mret (M := @M ShapeBackend) a').
Proof. intros HR st. by cbn. Qed.

Lemma sim_bind {A A' C C'} (R : A → A' → Prop) (R' : C → C' → Prop)
    (m : @M B A) (m' : @M ShapeBackend A') f f' :
  sim R m m' → (∀ a a', R a a' → sim R' (f a) (f' a')) →
  sim R' (m ≫= f) (m' ≫= f').
Proof.
  intros Hm Hf st. specialize (Hm st). unfold_M.
  destruct (m st) as [[a st1]|e], (m' (shape_state st)) as [[a' st1']|e'];
    try done.
  destruct Hm as [HR ->]. apply (Hf a a' HR st1).
Qed.

Lemma sim_lift (r : result (@Tensor B)) (r' : result (list Z)) :
  shape <$> r = r' → sim has_shape (lift r) (lift (H := ShapeBackend) r').
Proof. intros <- st. unfold lift. by destruct r. Qed.

Lemma running_stats_shape (st : @Keras B) (name : string) :
  running_stats (H := ShapeBackend) (shape_state st) name
  = shape <$> running_stats st name.
Proof.
  unfold running_stats, shape_state. cbn [moving_stats].
  rewrite lookup_fmap. by destruct (moving_stats st !! name).
Qed.

Lemma assign_moving_average_shape (name : string) (x : @Tensor B) st :
  shape_state (assign_moving_average name x st)
  = assign_moving_average (H := ShapeBackend) name (shape x) (shape_state st).
Proof.
  unfold assign_moving_average. rewrite running_stats_shape.
  unfold shape_state. cbn [moving_stats learning_phase].
  by rewrite fmap_insert, fmap_app.
Qed.

Lemma sim_BatchNormalization_call l x x' training :
  has_shape x x' →
  sim has_shape (BatchNormalization_call l x training)
                (BatchNormalization_call (H := ShapeBackend) l x' training).
Proof.
  intros <- st. unfold BatchNormalization_call.
  change (learning_phase (shape_state st)) with (learning_phase st).
  pose proof (batch_normalization_shaped l
                (default (learning_phase st) training)
                (running_stats st (bn_name l)) x) as Hbn.
  destruct (batch_normalization _ _ _ x) as [y|e]; [|done].
  injection Hbn as Hy. cbn.
  destruct (default _ training); (split; [done|]); [|done].
  by rewrite assign_moving_average_shape.
Qed.

Lemma sim_Conv2D_call l x x' :
  has_shape x x' →
  sim has_shape (Conv2D_call l x) (Conv2D_call (H := ShapeBackend) l x').
Proof. intros <-. apply sim_lift, conv2d_shaped. Qed.

Lemma sim_MaxPooling2D_call l x x' :
  has_shape x x' →
  sim has_shape (MaxPooling2D_call l x)
                (MaxPooling2D_call (H := ShapeBackend) l x').
Proof. intros <-. apply sim_lift, max_pooling2d_shaped. Qed.

Lemma sim_relu x x' :
  has_shape x x' → sim has_shape (relu x) (relu (H := ShapeBackend) x').
Proof. intros <-. apply sim_lift, nn_relu_shaped. Qed.

Lemma sim_add x x' y y' :
  has_shape x x' → has_shape y y' →
  sim has_shape (add x y) (add (H := ShapeBackend) x' y').
Proof. intros <- <-. apply sim_lift, tensor_add_shaped. Qed.

Lemma sim_getattr {A} (attr : option A) :
  sim eq (getattr attr) (getattr (H := ShapeBackend) attr).
Proof. destruct attr; [by apply sim_ret|]. by intros st. Qed.

Lemma sim_Bottleneck_branches (self : _Bottleneck.t) x x' training :
  has_shape x x' →
  sim (λ p p', has_shape p.1 p'.1 ∧ has_shape p.2 p'.2)
      (_Bottleneck.branches self x training)
      (_Bottleneck.branches (H := ShapeBackend) self x' training).
Proof.
  intros Hx. unfold _Bottleneck.branches.
  repeat first
    [ eapply sim_bind; [|intros ?? ?]
    | by apply sim_Conv2D_call | by apply sim_BatchNormalization_call
    | by apply sim_relu | by apply sim_ret ].
  destruct (_Bottleneck.downsampling self); [|by apply sim_ret].
  eapply sim_bind; [apply sim_getattr|intros ?? <-].
  eapply sim_bind; [by apply sim_Conv2D_call|intros ?? ?].
  eapply sim_bind; [apply sim_getattr|intros ?? <-].
  by apply sim_BatchNormalization_call.
Qed.

Lemma sim_Bottleneck_call (self : _Bottleneck.t) x x' training :
  has_shape x x' →
  sim has_shape (_Bottleneck.__call__ self x training)
                (_Bottleneck.__call__ (H := ShapeBackend) self x' training).
Proof.
  intros Hx. unfold _Bottleneck.__call__.
  eapply sim_bind; [by apply sim_Bottleneck_branches|].
  intros [main shortcut] [main' shortcut'] [Hm Hs].
  eapply sim_bind; [by apply sim_add|intros ?? ?].
  eapply sim_bind; [by apply sim_relu|intros ?? ?].
  by apply sim_ret.
Qed.

Lemma sim_ResNet50_call (self : ResNet50.t) x x' training :
  has_shape x x' →
  sim (λ out out',
         has_shape out.1.1.1 out'.1.1.1 ∧ has_shape out.1.1.2 out'.1.1.2
         ∧ has_shape out.1.2 out'.1.2 ∧ has_shape out.2 out'.2)
      (ResNet50.__call__ self x training)
      (ResNet50.__call__ (H := ShapeBackend) self x' training).
Proof.
  intros Hx. unfold ResNet50.__call__.
  repeat first
    [ by apply sim_Bottleneck_call
    | by apply sim_Conv2D_call | by apply sim_BatchNormalization_call
    | by apply sim_relu | by apply sim_MaxPooling2D_call
    | eapply sim_bind; [|intros ?? ?] ].
  by apply sim_ret.
Qed.

(** The forward pass of the backbone on tensors, seen through [shape], is the
    forward pass on shapes. *)
Theorem ResNet50_call_shape_sound (self : ResNet50.t) (x : @Tensor B)
    (training : option bool) (st : @Keras B) :
  match ResNet50.__call__ self x training st with
  | Ok ((C2, C3, C4, C5), st') =>
      ResNet50.__call__ (H := ShapeBackend) self (shape x) training
        (shape_state st)
      = Ok ((shape C2, shape C3, shape C4, shape C5), shape_state st')
  | Raise e =>
      ResNet50.__call__ (H := ShapeBackend) self (shape x) training
        (shape_state st)
      = Raise e
  end.
Proof.
  pose proof (sim_ResNet50_call self x (shape x) training eq_refl st) as Hsim.
  destruct (ResNet50.__call__ self x training st)
    as [[[[[C2 C3] C4] C5] st']|e],
    (ResNet50.__call__ (H := ShapeBackend) self (shape x) training
       (shape_state st))
    as [[[[[C2' C3'] C4'] C5'] st1]|e']; try done.
  - destruct Hsim as [(<- & <- & <- & <-) ->]. done.
  - by subst.
Qed.

(** The same for a bottleneck unit. *)
Theorem Bottleneck_call_shape_sound (self : _Bottleneck.t) (x : @Tensor B)
    (training : option bool) (st : @Keras B) :
  match _Bottleneck.__call__ self x training st with
  | Ok (y, st') =>
      _Bottleneck.__call__ (H := ShapeBackend) self (shape x) training
        (shape_state st)
      = Ok (shape y, shape_state st')
  | Raise e =>
      _Bottleneck.__call__ (H := ShapeBackend) self (shape x) training
        (shape_state st)
      = Raise e
  end.
Proof.
  pose proof (sim_Bottleneck_call self x (shape x) training eq_refl st) as Hsim.
  destruct (_Bottleneck.__call__ self x training st) as [[y st']|e],
    (_Bottleneck.__call__ (H := ShapeBackend) self (shape x) training
       (shape_state st)) as [[y' st1]|e']; try done.
  - destruct Hsim as [<- ->]. done.
  - by subst.
Qed.

Lemma sim_Ok_l {A A'} (R : A → A' → Prop) (m : @M B A)
    (m' : @M ShapeBackend A') st a st1 :
  sim R m m' → m st = Ok (a, st1) →
  ∃ a', m' (shape_state st) = Ok (a', shape_state st1) ∧ R a a'.
Proof.
  intros Hsim Hm. specialize (Hsim st). rewrite Hm in Hsim.
  destruct (m' (shape_state st)) as [[a' st1']|e']; [|done].
  destruct Hsim as [HR ->]. eauto.
Qed.

Lemma sim_Ok_r {A A'} (R : A → A' → Prop) (m : @M B A)
    (m' : @M ShapeBackend A') st a' st1' :
  sim R m m' → m' (shape_state st) = Ok (a', st1') →
  ∃ a st1, m st = Ok (a, st1) ∧ R a a' ∧ st1' = shape_state st1.
Proof.
  intros Hsim Hm'. specialize (Hsim st). rewrite Hm' in Hsim.
  destruct (m st) as [[a st1]|e]; [|done].
  destruct Hsim as [HR ->]. eauto.
Qed.

(** *** The shape lemmas, on every such backend *)

Lemma ResNet50_call_shaped (x : @Tensor B) (n h w c : Z)
    (training : option bool) (st : @Keras B) :
  shape x = [n; h; w; c] → 0 ≤ h → 0 ≤ w →
  ∃ C2 C3 C4 C5 st',
    ResNet50.__call__ ResNet50.__init__ x training st
    = Ok ((C2, C3, C4, C5), st')
    ∧ shape C2 = [n; ceil_div h 4; ceil_div w 4; 256]
    ∧ shape C3 = [n; ceil_div h 8; ceil_div w 8; 512]
    ∧ shape C4 = [n; ceil_div h 16; ceil_div w 16; 1024]
    ∧ shape C5 = [n; ceil_div h 32; ceil_div w 32; 2048].
Proof.
  intros Hx Hh Hw.
  destruct (ResNet50_call_shape n h w c training (shape_state st))
    as [st1 Hshape]; [done..|].
  destruct (sim_Ok_r _ _ _ st _ _
              (sim_ResNet50_call ResNet50.__init__ x _ training Hx) Hshape)
    as ([[[C2 C3] C4] C5] & st' & Hcall & (H2 & H3 & H4 & H5) & _).
  by exists C2, C3, C4, C5, st'.
Qed.

Section bottleneck_shaped.
Variables (filters1 filters2 filters3 : Z) (block : string).
Variables (downsampling : bool) (stride : Z).

Let self : _Bottleneck.t :=
  _Bottleneck.__init__ (filters1, filters2, filters3) block downsampling stride.

Lemma branches_shaped (x : @Tensor B) (n h w c : Z) (training : bool)
    (st : @Keras B) :
  shape x = [n; h; w; c] → 0 < stride → 0 ≤ h → 0 ≤ w →
  ∃ main shortcut st',
    _Bottleneck.branches self x training st = Ok ((main, shortcut), st')
    ∧ shape main = [n; ceil_div h stride; ceil_div w stride; filters3]
    ∧ shape shortcut
      = if downsampling
        then [n; ceil_div h stride; ceil_div w stride; filters3]
        else [n; h; w; c].
Proof.
  intros Hx Hs Hh Hw.
  destruct (branches_shape filters1 filters2 filters3 block downsampling
              stride n h w c training (shape_state st))
    as [st1 Hshape]; [done..|].
  destruct (sim_Ok_r _ _ _ st _ _
              (sim_Bottleneck_branches self x _ training Hx) Hshape)
    as ([main shortcut] & st' & Hcall & [Hm Hsc] & _).
  by exists main, shortcut, st'.
Qed.

Lemma call_shaped_projection (x : @Tensor B) (n h w c : Z)
    (training : option bool) (st : @Keras B) :
  shape x = [n; h; w; c] →
  downsampling = true → 0 < stride → 0 ≤ h → 0 ≤ w →
  ∃ y st',
    _Bottleneck.__call__ self x training st = Ok (y, st')
    ∧ shape y = [n; ceil_div h stride; ceil_div w stride; filters3].
Proof.
  intros Hx Hd Hs Hh Hw.
  destruct (call_shape_projection filters1 filters2 filters3 block
              downsampling stride n h w c training (shape_state st))
    as [st1 Hshape]; [done..|].
  destruct (sim_Ok_r _ _ _ st _ _
              (sim_Bottleneck_call self x _ training Hx) Hshape)
    as (y & st' & Hcall & Hy & _).
  by exists y, st'.
Qed.

Lemma call_shaped_identity (x : @Tensor B) (n h w : Z)
    (training : option bool) (st : @Keras B) :
  shape x = [n; h; w; filters3] →
  downsampling = false → stride = 1 → 0 ≤ h → 0 ≤ w →
  ∃ y st',
    _Bottleneck.__call__ self x training st = Ok (y, st')
    ∧ shape y = [n; h; w; filters3].
Proof.
  intros Hx Hd Hs Hh Hw.
  destruct (call_shape_identity filters1 filters2 filters3 block
              downsampling stride n h w training (shape_state st))
    as [st1 Hshape]; [done..|].
  destruct (sim_Ok_r _ _ _ st _ _
              (sim_Bottleneck_call self x _ training Hx) Hshape)
    as (y & st' & Hcall & Hy & _).
  by exists y, st'.
Qed.

Lemma call_shaped_inv (x y : @Tensor B) (n h w : Z)
    (training : option bool) (st st' : @Keras B) :
  shape x = [n; h; w; filters3] →
  downsampling = false → 0 < stride → 0 ≤ h → 0 ≤ w →
  _Bottleneck.__call__ self x training st = Ok (y, st') →
  shape y = [n; h; w; filters3].
Proof.
  intros Hx Hd Hs Hh Hw Hcall.
  destruct (sim_Ok_l _ _ _ st _ _
              (sim_Bottleneck_call self x _ training Hx) Hcall)
    as (y' & Hshape & Hy).
  eapply call_shape_inv in Hshape; [|done..].
  unfold has_shape in Hy. congruence.
Qed.
End bottleneck_shaped.
End shape_soundness.

(** * Properties of the backbone *)

(** ** Output shapes of the forward pass *)

(** C1: for an input tensor of shape [(N,H,W,3)] with [H] and [W] positive
    multiples of 32, the forward pass, whatever the mode argument (left out,
    training or inference) and whatever the state of the layers, returns
    four tensors of shapes [(N,H/4,W/4,256)], [(N,H/8,W/8,512)],
    [(N,H/16,W/16,1024)] and [(N,H/32,W/32,2048)]. *)
Theorem ResNet50_output_shapes {B : Backend} `{!Shaped B} (x : Tensor)
    (n h w : Z) (training : option bool) (st : Keras) :
  shape x = [n; h; w; 3] →
  0 < h → 0 < w → h `mod` 32 = 0 → w `mod` 32 = 0 →
  ∃ C2 C3 C4 C5 st',
    ResNet50.__call__ ResNet50.__init__ x training st
    = Ok ((C2, C3, C4, C5), st')
    ∧ shape C2 = [n; h `div` 4; w `div` 4; 256]
    ∧ shape C3 = [n; h `div` 8; w `div` 8; 512]
    ∧ shape C4 = [n; h `div` 16; w `div` 16; 1024]
    ∧ shape C5 = [n; h `div` 32; w `div` 32; 2048].
Proof.
  intros Hx Hh Hw Hh32 Hw32.
  destruct (ResNet50_call_shaped x n h w 3 training st)
    as (C2 & C3 & C4 & C5 & st' & Hcall & H2 & H3 & H4 & H5); [done|lia..|].
  exists C2, C3, C4, C5, st'.
  rewrite !ceil_div_exact_32 in H2, H3, H4, H5 by done. done.
Qed.

(** The demonstration entry point: an input of shape [(2,1024,1024,3)]. *)
Lemma ResNet50_output_shapes_witness :
  0 < 1024 ∧ 1024 `mod` 32 = 0 ∧
  ∃ C2 C3 C4 C5 st',
    ResNet50.__call__ ResNet50.__init__ [2; 1024; 1024; 3] None fresh
    = Ok ((C2, C3, C4, C5), st')
    ∧ C2 = [2; 256; 256; 256] ∧ C3 = [2; 128; 128; 512]
    ∧ C4 = [2; 64; 64; 1024] ∧ C5 = [2; 32; 32; 2048].
Proof.
  split; [lia|]. split; [reflexivity|].
  exact (ResNet50_output_shapes (B := ShapeBackend) [2; 1024; 1024; 3]
           2 1024 1024 None fresh eq_refl ltac:(lia) ltac:(lia)
           eq_refl eq_refl).
Defined.

(** ** Shape inference against the forward pass *)

(** C3, as stated, fails: the forward pass accepts an input of shape
    [(1,33,33,3)] and returns a first feature map of shape [(1,9,9,256)],
    where the analytic operation answers [(1,8,8,256)]. *)
Lemma inference_disagrees_33 :
  ResNet50.__call__ ResNet50.__init__ [1; 33; 33; 3] (Some false) fresh
  = Ok (([1; 9; 9; 256], [1; 5; 5; 512], [1; 3; 3; 1024], [1; 2; 2; 2048]),
        fresh)
  ∧ ResNet50.compute_output_shape ResNet50.__init__ (as_list [1; 33; 33; 3])
    = Ok (as_list [1; 8; 8; 256], as_list [1; 4; 4; 512],
          as_list [1; 2; 2; 1024], as_list [1; 1; 1; 2048])
  ∧ ¬ inference_agrees (B := ShapeBackend) [1; 33; 33; 3] (Some false) fresh.
Proof.
  assert (ResNet50.__call__ ResNet50.__init__ [1; 33; 33; 3] (Some false) fresh
          = Ok (([1; 9; 9; 256], [1; 5; 5; 512], [1; 3; 3; 1024],
                 [1; 2; 2; 2048]), fresh)) as Hcall.
  { vm_compute. reflexivity. }
  split; [exact Hcall|]. split; [vm_compute; reflexivity|].
  intros Hagree. specialize (Hagree _ _ _ _ _ Hcall). vm_compute in Hagree.
  discriminate Hagree.
Qed.

(** C3, amended: the forward pass accepts every input of shape [(N,H,W,C)]
    with positive [N], [H], [W] and [C], and the analytic operation returns
    the shapes of its four results exactly when [H] and [W] are multiples of
    32. *)
Theorem inference_agrees_iff {B : Backend} `{!Shaped B} (x : Tensor)
    (n h w c : Z) (training : option bool) (st : Keras) :
  shape x = [n; h; w; c] →
  0 < n → 0 < h → 0 < w → 0 < c →
  (∃ out st',
     ResNet50.__call__ ResNet50.__init__ x training st = Ok (out, st'))
  ∧ (inference_agrees x training st ↔ h `mod` 32 = 0 ∧ w `mod` 32 = 0).
Proof.
  intros Hx Hn Hh Hw Hc.
  destruct (ResNet50_call_shaped x n h w c training st)
    as (C2 & C3 & C4 & C5 & st' & Hcall & H2 & H3 & H4 & H5); [done|lia..|].
  split; [eauto|].
  unfold inference_agrees. rewrite Hcall, Hx. cbn [as_list fmap list_fmap].
  rewrite ResNet50_compute_output_shape_Ok
    by (try apply known_nonneg_Some; lia).
  split.
  - intros Hagree. specialize (Hagree _ _ _ _ _ eq_refl).
    rewrite H2, H3, H4, H5 in Hagree. cbn [as_list fmap list_fmap] in Hagree.
    injection Hagree as _ _ _ _ _ _ Hh32 Hw32.
    split; eapply ceil_div_floor_iff; (lia || done).
  - intros [Hh32 Hw32] C2' C3' C4' C5' st'' [= <- <- <- <- <-].
    rewrite H2, H3, H4, H5. cbn [as_list fmap list_fmap].
    rewrite !ceil_div_exact_32 by done. reflexivity.
Qed.

Lemma inference_agrees_iff_witness :
  0 < 2 ∧ 0 < 1024 ∧ 0 < 3 ∧
  (inference_agrees (B := ShapeBackend) [2; 1024; 1024; 3] None fresh
   ↔ 1024 `mod` 32 = 0 ∧ 1024 `mod` 32 = 0).
Proof.
  split; [lia|]. split; [lia|]. split; [lia|].
  apply (inference_agrees_iff (B := ShapeBackend) [2; 1024; 1024; 3]
           2 1024 1024 3 None fresh); (reflexivity || lia).
Defined.

(** ** Bottleneck units *)

(** C4: a unit built with channel counts [(filters1, filters2, filters3)]
    and a positive stride, run on an input tensor of shape [(N,H,W,C)] (with
    [C = filters3] when the unit has no projection shortcut, as its
    configuration requires), returns an output with [filters3] channels and
    with spatial dimensions [⌈H/stride⌉ × ⌈W/stride⌉] when it downsamples,
    [H × W] otherwise: every result has this shape, and a result exists when
    the unit downsamples or has stride 1.  [⌈a/stride⌉] is [ceil_div a stride],
    the least [q] with [a ≤ stride * q]. *)
Theorem Bottleneck_output_shape {B : Backend} `{!Shaped B}
    (filters1 filters2 filters3 : Z) (block : string) (downsampling : bool)
    (stride : Z) (x : Tensor) (n h w c : Z) (training : option bool)
    (st : Keras) :
  let self :=
    _Bottleneck.__init__ (filters1, filters2, filters3) block downsampling
      stride in
  let out_h := if downsampling then ceil_div h stride else h in
  let out_w := if downsampling then ceil_div w stride else w in
  shape x = [n; h; w; c] →
  0 < stride → 0 ≤ h → 0 ≤ w → (downsampling = false → c = filters3) →
  (∀ y st',
     _Bottleneck.__call__ self x training st = Ok (y, st') →
     shape y = [n; out_h; out_w; filters3])
  ∧ (downsampling = true ∨ stride = 1 →
     ∃ y st',
       _Bottleneck.__call__ self x training st = Ok (y, st')
       ∧ shape y = [n; out_h; out_w; filters3])
  ∧ stride * (ceil_div h stride - 1) < h ≤ stride * ceil_div h stride
  ∧ stride * (ceil_div w stride - 1) < w ≤ stride * ceil_div w stride.
Proof.
  intros self out_h out_w Hx Hs Hh Hw Hc.
  split; [|split; [|split; by apply ceil_div_spec]].
  - intros y st' Hcall. subst self out_h out_w.
    destruct downsampling.
    + destruct (call_shaped_projection filters1 filters2 filters3 block true
                  stride x n h w c training st)
        as (y' & st1 & Hp & Hy); [done..|].
      congruence.
    + rewrite (Hc eq_refl) in Hx.
      by eapply call_shaped_inv in Hcall.
  - intros Hcase. subst self out_h out_w.
    destruct downsampling.
    + by apply (call_shaped_projection _ _ _ _ _ _ x n h w c).
    + destruct Hcase as [|Hs1]; [done|]. rewrite (Hc eq_refl) in Hx.
      by apply call_shaped_identity.
Qed.

Lemma Bottleneck_output_shape_witness :
  0 < 2 ∧ 0 ≤ 255 ∧
  ∃ y st',
    _Bottleneck.__call__
      (_Bottleneck.__init__ (128, 128, 512) "3a" true 2)
      [2; 255; 255; 256] None fresh
    = Ok (y, st')
    ∧ y = [2; 128; 128; 512].
Proof.
  split; [lia|]. split; [lia|].
  refine (proj1 (proj2
    (Bottleneck_output_shape (B := ShapeBackend) 128 128 512 "3a" true 2
       [2; 255; 255; 256] 2 255 255 256 None fresh eq_refl
       ltac:(lia) ltac:(lia) ltac:(lia) ltac:(discriminate))) _).
  left. reflexivity.
Defined.

(** C7: in a unit with a projection shortcut and a stride [s > 1], the main
    path and the shortcut path both map spatial dimensions [H × W] to
    [⌈H/s⌉ × ⌈W/s⌉] ([H/s × W/s] when [s] divides them): the two tensors that
    are added have the same shape, and their sum is defined and has that
    shape. *)
Theorem Bottleneck_paths_agree {B : Backend} `{!Shaped B}
    (filters1 filters2 filters3 : Z) (block : string) (stride : Z)
    (x : Tensor) (n h w c : Z) (training : bool) (st : Keras) :
  let self :=
    _Bottleneck.__init__ (filters1, filters2, filters3) block true stride in
  shape x = [n; h; w; c] →
  1 < stride → 0 ≤ h → 0 ≤ w →
  ∃ main shortcut st',
    _Bottleneck.branches self x training st = Ok ((main, shortcut), st')
    ∧ shape main = [n; ceil_div h stride; ceil_div w stride; filters3]
    ∧ shape shortcut = [n; ceil_div h stride; ceil_div w stride; filters3]
    ∧ (∃ sum, tensor_add main shortcut = Ok sum ∧ shape sum = shape main)
    ∧ (h `mod` stride = 0 → ceil_div h stride = h `div` stride)
    ∧ (w `mod` stride = 0 → ceil_div w stride = w `div` stride).
Proof.
  intros self Hx Hs Hh Hw.
  destruct (branches_shaped filters1 filters2 filters3 block true stride
              x n h w c training st)
    as (main & shortcut & st' & Hb & Hm & Hsc); [done|lia|done..|].
  exists main, shortcut, st'. split; [exact Hb|].
  split; [done|]. split; [done|]. split.
  - pose proof (tensor_add_shaped main shortcut) as Hadd.
    rewrite Hsc, <- Hm, broadcast_refl in Hadd.
    destruct (tensor_add main shortcut) as [sum|e]; [|done].
    injection Hadd as Hsum. eauto.
  - split; intros Hmod; apply ceil_div_exact; (lia || done).
Qed.

Lemma Bottleneck_paths_agree_witness :
  1 < 2 ∧ 0 ≤ 256 ∧
  ∃ main shortcut st',
    _Bottleneck.branches (_Bottleneck.__init__ (128, 128, 512) "3a" true 2)
      [2; 256; 256; 256] true fresh
    = Ok ((main, shortcut), st')
    ∧ main = [2; 128; 128; 512]
    ∧ shortcut = [2; 128; 128; 512].
Proof.
  split; [lia|]. split; [lia|].
  destruct (Bottleneck_paths_agree (B := ShapeBackend) 128 128 512 "3a" 2
              [2; 256; 256; 256] 2 256 256 256 true fresh)
    as (main & shortcut & st' & Hb & Hm & Hsc & _);
    [reflexivity | lia..|].
  exists main, shortcut, st'. split; [exact Hb|]. split; [exact Hm|exact Hsc].
Defined.

(** ** Analytic shape inference *)

(** C10: on an input shape [(N,H,W,C)] (the batch size and the channel count
    possibly unknown, [H] and [W] any naturals, divisible by 32 or not), the
    backbone's shape inference returns [(N,H//4,W//4,256)],
    [(N,H//8,W//8,512)], [(N,H//16,W//16,1024)], [(N,H//32,W//32,2048)], and
    that of a bottleneck unit returns [(N,H//stride,W//stride,filters3)]
    whether or not the unit has a projection shortcut. *)
Theorem compute_output_shape_floor (batch C : Dimension) (H W : Z) :
  known_nonneg batch → known_nonneg C → 0 ≤ H → 0 ≤ W →
  ResNet50.compute_output_shape ResNet50.__init__ [batch; Some H; Some W; C]
  = Ok ([batch; Some (H `div` 4); Some (W `div` 4); Some 256],
        [batch; Some (H `div` 8); Some (W `div` 8); Some 512],
        [batch; Some (H `div` 16); Some (W `div` 16); Some 1024],
        [batch; Some (H `div` 32); Some (W `div` 32); Some 2048])
  ∧ ∀ filters1 filters2 filters3 block downsampling stride,
      0 < stride → 0 ≤ filters3 →
      _Bottleneck.compute_output_shape
        (_Bottleneck.__init__ (filters1, filters2, filters3) block
           downsampling stride)
        [batch; Some H; Some W; C]
      = Ok [batch; Some (H `div` stride); Some (W `div` stride); Some filters3].
Proof.
  intros Hb HC HH HW. split.
  - by apply ResNet50_compute_output_shape_Ok.
  - intros. by apply Bottleneck_compute_output_shape_Ok.
Qed.

Lemma compute_output_shape_floor_witness :
  0 ≤ 33 ∧ 0 ≤ 47 ∧
  ResNet50.compute_output_shape ResNet50.__init__
    [None; Some 33; Some 47; Some 5]
  = Ok ([None; Some 8; Some 11; Some 256], [None; Some 4; Some 5; Some 512],
        [None; Some 2; Some 2; Some 1024], [None; Some 1; Some 1; Some 2048])
  ∧ _Bottleneck.compute_output_shape
      (_Bottleneck.__init__ (128, 128, 512) "3b" false 2)
      [None; Some 33; Some 47; Some 5]
    = Ok [None; Some 16; Some 23; Some 512].
Proof.
  split; [lia|]. split; [lia|].
  destruct (compute_output_shape_floor None (Some 5) 33 47) as [Hr Hu];
    [done | by apply known_nonneg_Some | lia | lia |].
  split; [exact Hr|].
  apply (Hu 128 128 512 "3b" false 2); lia.
Defined.

Lemma append_assoc (a b c : string) : (a +:+ b) +:+ c = a +:+ (b +:+ c).
Proof.
  induction a as [|ch a IH]; [done|].
  change (String ch ((a +:+ b) +:+ c) = String ch (a +:+ b +:+ c)).
  by rewrite IH.
Qed.

(** Both sides run the same layers in the same order: unfold the stages and
    split on the result of each layer. *)
Ltac run_stages :=
  unfold _Bottleneck.__call__, _Bottleneck.branches, _Bottleneck.__init__,
    spec_main_path, kleisli, convolution, normalization, getattr,
    layers.Conv2D, layers.BatchNormalization, _Bottleneck.training_default;
  rewrite !append_assoc;
  change ("_branch" +:+ "2a") with "_branch2a";
  change ("_branch" +:+ "2b") with "_branch2b";
  change ("_branch" +:+ "2c") with "_branch2c";
  change ("_branch" +:+ "1") with "_branch1";
  unfold_M; cbn;
  repeat case_match; simplify_eq; congruence.

(** C5: the forward pass of a unit is the composition
    1×1 convolution (stride of the unit) → normalization → relu →
    3×3 convolution (stride 1, same padding) → normalization → relu →
    1×1 convolution (stride 1) → normalization on the main path; 1×1
    convolution (stride of the unit) → normalization on the shortcut path
    when the unit has a projection, the input itself otherwise; and [relu]
    of the sum of the two. *)
Theorem Bottleneck_call_composition `{Backend}
    (filters : Z * Z * Z) (block : string) (downsampling : bool) (stride : Z)
    (x : Tensor) (training : option bool) (st : Keras) :
  _Bottleneck.__call__
    (_Bottleneck.__init__ filters block downsampling stride) x training st
  = spec_bottleneck filters block downsampling stride
      (default false training) x st.
Proof.
  destruct filters as [[filters1 filters2] filters3].
  unfold spec_bottleneck, spec_shortcut_path.
  destruct downsampling; run_stages.
Qed.

(** C6: a unit without projection shortcut and with stride 1 computes
    [relu (main_path x + x)], the second addend being the input itself; on
    an input tensor whose channel count is the third filter count the sum is
    defined and the result has the shape of the input. *)
Theorem Bottleneck_identity_shortcut {B : Backend} `{!Shaped B}
    (filters1 filters2 filters3 : Z) (block : string) (x : Tensor)
    (training : option bool) (st : Keras) :
  let self :=
    _Bottleneck.__init__ (filters1, filters2, filters3) block false 1 in
  _Bottleneck.__call__ self x training st
  = spec_identity_bottleneck (filters1, filters2, filters3) block 1
      (default false training) x st
  ∧ ∀ n h w,
      shape x = [n; h; w; filters3] → 0 ≤ h → 0 ≤ w →
      ∃ y st',
        _Bottleneck.__call__ self x training st = Ok (y, st')
        ∧ shape y = [n; h; w; filters3].
Proof.
  intros self. split.
  - subst self. unfold spec_identity_bottleneck. run_stages.
  - intros n h w Hx Hh Hw. by apply call_shaped_identity.
Qed.

Lemma Bottleneck_identity_shortcut_witness :
  0 ≤ 256 ∧
  ∃ y st',
    _Bottleneck.__call__ (_Bottleneck.__init__ (64, 64, 256) "2b" false 1)
      [2; 256; 256; 256] None fresh
    = Ok (y, st')
    ∧ y = [2; 256; 256; 256].
Proof.
  split; [lia|].
  exact (proj2
    (Bottleneck_identity_shortcut (B := ShapeBackend) 64 64 256 "2b"
       [2; 256; 256; 256] None fresh)
    2 256 256 eq_refl ltac:(lia) ltac:(lia)).
Defined.

(** ** Defaults of the mode argument *)

(** C9: called without the mode argument, the backbone runs as with
    [training=True] and a bottleneck unit as with [training=False]; the two
    defaults are opposite. *)
Theorem call_training_defaults `{Backend}
    (self : ResNet50.t) (bottleneck : _Bottleneck.t) (x : Tensor) :
  ResNet50.__call__ self x None = ResNet50.__call__ self x (Some true)
  ∧ _Bottleneck.__call__ bottleneck x None
    = _Bottleneck.__call__ bottleneck x (Some false)
  ∧ ResNet50.training_default = negb _Bottleneck.training_default.
Proof. done. Qed.

(** ** Names of the layers *)

(** C8: the layers of the stem are named ['conv1'] and ['bn_conv1']; a unit
    built with block identifier [b] names its main-path pairs
    ['res'+b+'_branch2a'] / ['bn'+b+'_branch2a'], likewise [2b] and [2c], and
    its projection pair, present exactly when it downsamples,
    ['res'+b+'_branch1'] / ['bn'+b+'_branch1']; the sixteen units of the
    backbone carry the identifiers 2a-2c, 3a-3d, 4a-4f, 5a-5c, and no two
    layers of the backbone share a name. *)
Theorem layer_names_scheme :
  conv_name (ResNet50.conv1 ResNet50.__init__) = "conv1"
  ∧ bn_name (ResNet50.bn_conv1 ResNet50.__init__) = "bn_conv1"
  ∧ (∀ filters b downsampling stride,
       Bottleneck_layer_names
         (_Bottleneck.__init__ filters b downsampling stride)
       = naming_scheme b downsampling)
  ∧ Bottleneck_layer_names <$> ResNet50_units ResNet50.__init__
    = (λ '(b, projection), naming_scheme b projection) <$> block_identifiers
  ∧ Bottleneck_layer_names (ResNet50.res3a ResNet50.__init__)
    = [ ("res3a_branch2a", "bn3a_branch2a");
        ("res3a_branch2b", "bn3a_branch2b");
        ("res3a_branch2c", "bn3a_branch2c");
        ("res3a_branch1", "bn3a_branch1") ]
  ∧ NoDup (ResNet50_layer_names ResNet50.__init__).*1
  ∧ NoDup (ResNet50_layer_names ResNet50.__init__).*2.
Proof.
  split; [done|]. split; [done|]. split.
  { intros [[filters1 filters2] filters3] b downsampling stride.
    unfold Bottleneck_layer_names, naming_scheme, _Bottleneck.__init__,
      layers.Conv2D, layers.BatchNormalization.
    cbn. rewrite !append_assoc. by destruct downsampling. }
  split; [by vm_compute|]. split; [by vm_compute|].
  split; apply (bool_decide_unpack _); by vm_compute.
Qed.

(** ** Running statistics and the mode argument *)

(** C2 fails on the stem: [bn_conv1] is called without the mode argument
    (line 118), so it follows the learning phase and not the argument.  On an
    input of shape [(2,1024,1024,3)], a forward pass in training mode at the
    default learning phase folds a batch into the statistics of the units'
    layers and leaves those of [bn_conv1] as they were; a forward pass in
    inference mode at learning phase 1 updates those of [bn_conv1]. *)
Theorem stem_normalization_ignores_mode :
  let training_pass :=
    ResNet50.__call__ ResNet50.__init__ [2; 1024; 1024; 3] (Some true) fresh in
  let inference_pass :=
    ResNet50.__call__ ResNet50.__init__ [2; 1024; 1024; 3] (Some false)
      fresh_learning in
  running_stats fresh "bn_conv1" = []
  ∧ running_stats_after training_pass "bn_conv1" = Ok []
  ∧ running_stats_after training_pass "bn2a_branch2a" = Ok [[2; 256; 256; 64]]
  ∧ running_stats_after training_pass "bn5c_branch2c" = Ok [[2; 32; 32; 2048]]
  ∧ running_stats fresh_learning "bn_conv1" = []
  ∧ running_stats_after inference_pass "bn_conv1" = Ok [[2; 512; 512; 64]]
  ∧ running_stats_after inference_pass "bn2a_branch2a" = Ok []
  ∧ running_stats_after inference_pass "bn5c_branch2c" = Ok [].
Proof.
  repeat split; vm_compute; reflexivity.
Qed.

(** ** Which layers follow the mode argument

    For every backend: the running statistics only grow, and a forward pass
    appends one batch per call of a normalization layer in training mode. *)

Section running_statistics.
Context `{Backend}.

Lemma grows_refl (st : Keras) : grows [] st st.
Proof. split; [done|]. intros name. exists []. by rewrite app_nil_r. Qed.

Lemma grows_trans (calls1 calls2 : list string) (st st1 st2 : Keras) :
  grows calls1 st st1 → grows calls2 st1 st2 → grows (calls1 ++ calls2) st st2.
Proof.
  intros [Hlp1 Hg1] [Hlp2 Hg2]. split; [congruence|]. intros name.
  destruct (Hg1 name) as (b1 & Hb1 & Hl1).
  destruct (Hg2 name) as (b2 & Hb2 & Hl2).
  exists (b1 ++ b2). split.
  - by rewrite Hb2, Hb1, app_assoc.
  - unfold occurrences in *. rewrite filter_app, !length_app. lia.
Qed.

Lemma assign_moving_average_grows (name : string) (batch : Tensor) (st : Keras) :
  grows [name] st (assign_moving_average name batch st).
Proof.
  split; [done|]. intros name'.
  unfold running_stats, assign_moving_average, occurrences.
  cbn [moving_stats].
  destruct (decide (name = name')) as [<-|Hne].
  - exists [batch]. rewrite lookup_insert_eq.
    rewrite filter_cons_True by done. done.
  - exists []. rewrite lookup_insert_ne by done.
    rewrite filter_cons_False by done. by rewrite app_nil_r.
Qed.

Lemma lift_inv {A} (r : result A) (st st' : Keras) (a : A) :
  lift r st = Ok (a, st') → r = Ok a ∧ st' = st.
Proof. unfold lift. destruct r; naive_solver. Qed.

Lemma BatchNormalization_call_grows (l : BatchNormalization) (x y : Tensor)
    (training : option bool) (st st' : Keras) :
  BatchNormalization_call l x training st = Ok (y, st') →
  grows (if default (learning_phase st) training then [bn_name l] else [])
    st st'.
Proof.
  unfold BatchNormalization_call.
  destruct (batch_normalization _ _ _ _); [|done].
  destruct (default _ training); intros [= <- <-].
  - apply assign_moving_average_grows.
  - apply grows_refl.
Qed.

(** Splitting a successful run at each bind, and reading the effect of each
    layer on the running statistics. *)
Ltac split_run :=
  repeat match goal with
  | H : (_ ≫= _) _ = Ok _ |- _ =>
      apply bind_inv in H as (? & ? & ? & H)
  | H : (let '(_, _) := ?p in _) _ = Ok _ |- _ => destruct p
  | H : mret _ _ = Ok _ |- _ => injection H as <- <-
  | H : Conv2D_call _ _ _ = Ok _ |- _ => apply lift_inv in H as [_ ->]
  | H : MaxPooling2D_call _ _ _ = Ok _ |- _ => apply lift_inv in H as [_ ->]
  | H : relu _ _ = Ok _ |- _ => apply lift_inv in H as [_ ->]
  | H : add _ _ _ = Ok _ |- _ => apply lift_inv in H as [_ ->]
  | H : BatchNormalization_call _ _ _ _ = Ok _ |- _ =>
      apply BatchNormalization_call_grows in H
  end.

Lemma Bottleneck_call_grows (filters : Z * Z * Z) (block : string)
    (downsampling : bool) (stride : Z) (x y : Tensor)
    (training : option bool) (st st' : Keras) :
  let self := _Bottleneck.__init__ filters block downsampling stride in
  _Bottleneck.__call__ self x training st = Ok (y, st') →
  grows (if default false training then Bottleneck_bn_names self else [])
    st st'.
Proof.
  intros self. subst self. destruct filters as [[filters1 filters2] filters3].
  unfold _Bottleneck.__call__, _Bottleneck.branches, _Bottleneck.__init__,
    _Bottleneck.training_default, Bottleneck_bn_names, Bottleneck_layer_names,
    getattr.
  intros Hcall. destruct downsampling; cbn in Hcall; split_run.
  all: cbn [default] in *; destruct (default false training); cbn.
  all: repeat match goal with
       | H1 : grows _ ?a ?b, H2 : grows _ ?b ?c |- _ =>
           pose proof (grows_trans _ _ _ _ _ H1 H2); clear H1 H2
       end; subst.
  all: first [assumption | apply grows_refl].
Qed.
Lemma ResNet50_call_grows (x : Tensor) (training : option bool)
    (st st' : Keras) (out : Tensor * Tensor * Tensor * Tensor) :
  ResNet50.__call__ ResNet50.__init__ x training st = Ok (out, st') →
  grows ((if learning_phase st then ["bn_conv1"] else [])
         ++ (if default true training
             then ResNet50_bn_names ResNet50.__init__ else []))
    st st'.
Proof.
  unfold ResNet50.__call__, ResNet50.training_default.
  cbn [ResNet50.__init__ ResNet50.conv1 ResNet50.bn_conv1 ResNet50.max_pool
       ResNet50.res2a ResNet50.res2b ResNet50.res2c
       ResNet50.res3a ResNet50.res3b ResNet50.res3c ResNet50.res3d
       ResNet50.res4a ResNet50.res4b ResNet50.res4c ResNet50.res4d
       ResNet50.res4e ResNet50.res4f
       ResNet50.res5a ResNet50.res5b ResNet50.res5c].
  intros Hcall. split_run.
  repeat match goal with
  | H : _Bottleneck.__call__ _ _ _ _ = Ok _ |- _ =>
      apply Bottleneck_call_grows in H
  end.
  cbn [default] in *.
  repeat match goal with
  | H1 : grows _ ?a ?b, H2 : grows _ ?b ?c |- _ =>
      pose proof (grows_trans _ _ _ _ _ H1 H2); clear H1 H2
  end.
  match goal with H : grows ?calls ?a ?b |- grows ?calls' ?a ?b =>
    replace calls' with calls; [exact H|] end.
  cbn [bn_name layers.BatchNormalization]. f_equal.
  destruct (default true training); reflexivity.
Qed.

Lemma occurrences_not_elem_of (name : string) (calls : list string) :
  name ∉ calls → occurrences name calls = 0%nat.
Proof.
  unfold occurrences. induction calls as [|n calls IH]; intros Hn; [done|].
  apply not_elem_of_cons in Hn as [Hne Hn].
  rewrite filter_cons_False by done. by apply IH.
Qed.

Lemma occurrences_NoDup (name : string) (calls : list string) :
  NoDup calls → name ∈ calls → occurrences name calls = 1%nat.
Proof.
  induction 1 as [|n calls Hn Hnd IH]; intros Hin.
  - by apply elem_of_nil in Hin.
  - apply elem_of_cons in Hin as [->|Hin].
    + pose proof (occurrences_not_elem_of n calls Hn) as H0.
      unfold occurrences in *. rewrite filter_cons_True by done.
      cbn. by rewrite H0.
    + specialize (IH Hin). unfold occurrences in *.
      rewrite filter_cons_False by (intros ->; done). done.
Qed.

Lemma occurrences_app (name : string) (calls1 calls2 : list string) :
  occurrences name (calls1 ++ calls2)
  = (occurrences name calls1 + occurrences name calls2)%nat.
Proof. unfold occurrences. by rewrite filter_app, length_app. Qed.

Lemma ResNet50_bn_names_NoDup :
  NoDup ("bn_conv1" :: ResNet50_bn_names ResNet50.__init__).
Proof. apply (bool_decide_unpack _). by vm_compute. Qed.

(** X5: for every backend, input and state: a forward pass that returns has
    appended exactly one batch to the statistics of each normalization layer
    of the sixteen units when run in training mode and none in inference
    mode, whereas the layer of the stem receives a batch exactly when the
    learning phase is 1, whatever the mode argument. *)
Theorem running_statistics_after_call (x : Tensor) (training : option bool)
    (st st' : Keras) (out : Tensor * Tensor * Tensor * Tensor) :
  ResNet50.__call__ ResNet50.__init__ x training st = Ok (out, st') →
  (∀ name, name ∈ ResNet50_bn_names ResNet50.__init__ →
     ∃ batches,
       running_stats st' name = running_stats st name ++ batches
       ∧ length batches = if default true training then 1%nat else 0%nat)
  ∧ ∃ batches,
      running_stats st' "bn_conv1" = running_stats st "bn_conv1" ++ batches
      ∧ length batches = if learning_phase st then 1%nat else 0%nat.
Proof.
  intros Hcall. apply ResNet50_call_grows in Hcall as [_ Hg].
  pose proof ResNet50_bn_names_NoDup as Hnd.
  apply NoDup_cons in Hnd as [Hstem Hnd].
  split.
  - intros name Hname. destruct (Hg name) as (batches & Hb & Hl).
    exists batches. split; [done|]. rewrite Hl, occurrences_app.
    assert (name ≠ "bn_conv1") as Hne by (intros ->; done).
    replace (occurrences name (if learning_phase st then _ else _)) with 0%nat.
    + destruct (default true training); [|done].
      by rewrite occurrences_NoDup.
    + destruct (learning_phase st); [|done].
      symmetry. apply occurrences_not_elem_of. by intros ?%list_elem_of_singleton.
  - destruct (Hg "bn_conv1") as (batches & Hb & Hl).
    exists batches. split; [done|]. rewrite Hl, occurrences_app.
    replace (occurrences "bn_conv1" (if default true training then _ else _))
      with 0%nat.
    + by destruct (learning_phase st).
    + destruct (default true training); [|done].
      symmetry. by apply occurrences_not_elem_of.
Qed.
End running_statistics.

(** * Further properties of the two classes *)

(** ** The forward pass on inputs of any size *)

(** Whatever the random draw, the demonstration prints the four shapes. *)
Lemma main_prints {B : Backend} `{!Shaped B} (random_normal : list Z → Tensor)
    (st : Keras) :
  shape (random_normal [2; 1024; 1024; 3]) = [2; 1024; 1024; 3] →
  ∃ st',
    main random_normal st
    = Ok ([ ("C2 shape:", [2; 256; 256; 256]); ("C3 shape:", [2; 128; 128; 512]);
            ("C4 shape:", [2; 64; 64; 1024]); ("C5 shape:", [2; 32; 32; 2048]) ],
          st').
Proof.
  intros Hx. unfold main.
  destruct (ResNet50_call_shaped _ 2 1024 1024 3 None st Hx)
    as (C2 & C3 & C4 & C5 & st' & Hcall & H2 & H3 & H4 & H5); [lia..|].
  rewrite (bind_Ok _ _ _ _ _ Hcall). cbn. rewrite H2, H3, H4, H5.
  eexists. reflexivity.
Qed.

(** X1: a newly constructed backbone accepts an input tensor of shape
    [(N,H,W,C)] for all positive [N], [H], [W] and [C], with [H] and [W]
    divisible by 32 or not, whatever the mode argument, the learning phase
    and the running statistics, and returns feature maps whose spatial
    dimensions are the ceilings of [H/4], [H/8], [H/16], [H/32] (and likewise
    for [W]) with 256, 512, 1024 and 2048 channels.  [ceil_div a b] is the
    least [q] with [a ≤ b * q]. *)
Theorem ResNet50_accepts_every_size {B : Backend} `{!Shaped B} (x : Tensor)
    (n h w c : Z) (training : option bool) (st : Keras) :
  shape x = [n; h; w; c] → 0 < n → 0 < h → 0 < w → 0 < c →
  (∃ C2 C3 C4 C5 st',
     ResNet50.__call__ ResNet50.__init__ x training st
     = Ok ((C2, C3, C4, C5), st')
     ∧ shape C2 = [n; ceil_div h 4; ceil_div w 4; 256]
     ∧ shape C3 = [n; ceil_div h 8; ceil_div w 8; 512]
     ∧ shape C4 = [n; ceil_div h 16; ceil_div w 16; 1024]
     ∧ shape C5 = [n; ceil_div h 32; ceil_div w 32; 2048])
  ∧ ∀ k, 0 < k →
      k * (ceil_div h k - 1) < h ≤ k * ceil_div h k
      ∧ k * (ceil_div w k - 1) < w ≤ k * ceil_div w k.
Proof.
  intros Hx Hn Hh Hw Hc. split.
  - apply (ResNet50_call_shaped x n h w c); (done || lia).
  - intros k Hk. split; by apply ceil_div_spec.
Qed.

Lemma ResNet50_accepts_every_size_witness :
  0 < 1 ∧ 0 < 33 ∧ 0 < 47 ∧ 0 < 5 ∧
  ∃ C2 C3 C4 C5 st',
    ResNet50.__call__ ResNet50.__init__ [1; 33; 47; 5] (Some true) fresh
    = Ok ((C2, C3, C4, C5), st')
    ∧ C2 = [1; 9; 12; 256] ∧ C3 = [1; 5; 6; 512]
    ∧ C4 = [1; 3; 3; 1024] ∧ C5 = [1; 2; 2; 2048].
Proof.
  split; [lia|]. split; [lia|]. split; [lia|]. split; [lia|].
  exact (proj1 (ResNet50_accepts_every_size (B := ShapeBackend) [1; 33; 47; 5]
                  1 33 47 5 (Some true) fresh eq_refl ltac:(lia) ltac:(lia)
                  ltac:(lia) ltac:(lia))).
Defined.

(** X2: on a non-empty image the four feature maps form a pyramid: none is
    empty, and each has the ceiling of half the height and width of the one
    before it (so twice its size is the previous size or one more) and twice
    its channels. *)
Theorem ResNet50_pyramid {B : Backend} `{!Shaped B} (x : Tensor)
    (n h w c : Z) (training : option bool) (st st' : Keras)
    (C2 C3 C4 C5 : Tensor) :
  shape x = [n; h; w; c] → 0 < h → 0 < w →
  ResNet50.__call__ ResNet50.__init__ x training st
  = Ok ((C2, C3, C4, C5), st') →
  ∃ h2 w2 h3 w3 h4 w4 h5 w5,
    shape C2 = [n; h2; w2; 256] ∧ shape C3 = [n; h3; w3; 2 * 256]
    ∧ shape C4 = [n; h4; w4; 2 * 512] ∧ shape C5 = [n; h5; w5; 2 * 1024]
    ∧ (0 < h5 ∧ 0 < w5)
    ∧ (2 * h3 - 1 ≤ h2 ≤ 2 * h3 ∧ 2 * w3 - 1 ≤ w2 ≤ 2 * w3)
    ∧ (2 * h4 - 1 ≤ h3 ≤ 2 * h4 ∧ 2 * w4 - 1 ≤ w3 ≤ 2 * w4)
    ∧ (2 * h5 - 1 ≤ h4 ≤ 2 * h5 ∧ 2 * w5 - 1 ≤ w4 ≤ 2 * w5).
Proof.
  intros Hx Hh Hw Hcall.
  destruct (ResNet50_call_shaped x n h w c training st)
    as (C2' & C3' & C4' & C5' & st1 & Hcall' & H2 & H3 & H4 & H5);
    [done|lia..|].
  rewrite Hcall in Hcall'. injection Hcall' as <- <- <- <- <-.
  exists (ceil_div h 4), (ceil_div w 4), (ceil_div h 8), (ceil_div w 8),
    (ceil_div h 16), (ceil_div w 16), (ceil_div h 32), (ceil_div w 32).
  do 4 (split; [done|]).
  pose proof (ceil_div_spec h 32 ltac:(lia)).
  pose proof (ceil_div_spec w 32 ltac:(lia)).
  assert (∀ a k, 0 < k → 2 * ceil_div a (k * 2) - 1 ≤ ceil_div a k
                          ≤ 2 * ceil_div a (k * 2)) as Hhalf.
  { intros a k Hk. rewrite <- (ceil_div_ceil_div a k 2) by lia.
    pose proof (ceil_div_spec (ceil_div a k) 2 ltac:(lia)). lia. }
  pose proof (Hhalf h 4 ltac:(lia)). pose proof (Hhalf w 4 ltac:(lia)).
  pose proof (Hhalf h 8 ltac:(lia)). pose proof (Hhalf w 8 ltac:(lia)).
  pose proof (Hhalf h 16 ltac:(lia)). pose proof (Hhalf w 16 ltac:(lia)).
  change (4 * 2) with 8 in *. change (8 * 2) with 16 in *.
  change (16 * 2) with 32 in *.
  repeat split; lia.
Qed.

Lemma ResNet50_pyramid_witness :
  0 < 33 ∧
  ∃ h2 w2 h3 w3 h4 w4 h5 w5,
    [1; 9; 9; 256] = [1; h2; w2; 256] ∧ [1; 5; 5; 512] = [1; h3; w3; 2 * 256]
    ∧ [1; 3; 3; 1024] = [1; h4; w4; 2 * 512]
    ∧ [1; 2; 2; 2048] = [1; h5; w5; 2 * 1024]
    ∧ (0 < h5 ∧ 0 < w5)
    ∧ (2 * h3 - 1 ≤ h2 ≤ 2 * h3 ∧ 2 * w3 - 1 ≤ w2 ≤ 2 * w3)
    ∧ (2 * h4 - 1 ≤ h3 ≤ 2 * h4 ∧ 2 * w4 - 1 ≤ w3 ≤ 2 * w4)
    ∧ (2 * h5 - 1 ≤ h4 ≤ 2 * h5 ∧ 2 * w5 - 1 ≤ w4 ≤ 2 * w5).
Proof.
  split; [lia|].
  refine (ResNet50_pyramid (B := ShapeBackend) [1; 33; 33; 3] 1 33 33 3
            (Some false) fresh fresh
            [1; 9; 9; 256] [1; 5; 5; 512] [1; 3; 3; 1024] [1; 2; 2; 2048]
            eq_refl ltac:(lia) ltac:(lia) _).
  vm_compute. reflexivity.
Defined.

(** ** Running statistics *)

Lemma ResNet50_running_statistics_witness :
  ∃ out st',
    ResNet50.__call__ ResNet50.__init__ [2; 64; 64; 3] (Some true) fresh
    = Ok (out, st')
    ∧ (∃ batches,
         running_stats st' "bn4c_branch2b"
         = running_stats fresh "bn4c_branch2b" ++ batches
         ∧ length batches = 1%nat)
    ∧ (∃ batches,
         running_stats st' "bn_conv1"
         = running_stats fresh "bn_conv1" ++ batches
         ∧ length batches = 0%nat).
Proof.
  destruct (ResNet50_call_shape 2 64 64 3 (Some true) fresh) as [st' Hcall];
    [lia..|].
  destruct (running_statistics_after_call _ _ _ _ _ Hcall) as [Hunits Hstem].
  eexists _, st'. split; [exact Hcall|]. split; [|exact Hstem].
  apply Hunits. apply (bool_decide_unpack _). vm_compute. exact I.
Defined.

Section frozen_statistics.
Context `{Backend}.

(** Splitting a run that returns at each bind; the layers that hold no
    statistics leave the state as it is. *)
Ltac split_calls :=
  repeat match goal with
  | H : (_ ≫= _) _ = Ok _ |- _ =>
      apply bind_inv in H as (? & ? & ? & H)
  | H : (let '(_, _) := ?p in _) _ = Ok _ |- _ => destruct p
  | H : mret _ _ = Ok _ |- _ => injection H as <- <-
  | H : getattr ?a _ = Ok _ |- _ =>
      destruct a; [injection H as <- <-|discriminate H]
  | H : Conv2D_call _ _ _ = Ok _ |- _ => apply lift_inv in H as [_ ->]
  | H : MaxPooling2D_call _ _ _ = Ok _ |- _ => apply lift_inv in H as [_ ->]
  | H : relu _ _ = Ok _ |- _ => apply lift_inv in H as [_ ->]
  | H : add _ _ _ = Ok _ |- _ => apply lift_inv in H as [_ ->]
  end.

Lemma BatchNormalization_call_frozen (l : BatchNormalization) (x y : Tensor)
    (training : option bool) (st st' : Keras) :
  default (learning_phase st) training = false →
  BatchNormalization_call l x training st = Ok (y, st') → st' = st.
Proof.
  unfold BatchNormalization_call. intros ->.
  destruct (batch_normalization _ _ _ _); [|done]. by intros [= _ <-].
Qed.

Lemma Bottleneck_call_frozen (self : _Bottleneck.t) (x y : Tensor)
    (training : option bool) (st st' : Keras) :
  default false training = false →
  _Bottleneck.__call__ self x training st = Ok (y, st') → st' = st.
Proof.
  unfold _Bottleneck.__call__, _Bottleneck.branches,
    _Bottleneck.training_default.
  intros -> Hcall. destruct (_Bottleneck.downsampling self); split_calls.
  all: repeat match goal with
       | H : BatchNormalization_call _ _ (Some false) _ = Ok _ |- _ =>
           apply BatchNormalization_call_frozen in H; [subst|done]
       end.
  all: done.
Qed.

Lemma ResNet50_call_frozen (self : ResNet50.t) (x : Tensor)
    (st st' : Keras) (out : Tensor * Tensor * Tensor * Tensor) :
  learning_phase st = false →
  ResNet50.__call__ self x (Some false) st = Ok (out, st') → st' = st.
Proof.
  unfold ResNet50.__call__.
  change (default ResNet50.training_default (Some false)) with false.
  intros Hlp Hcall. split_calls.
  repeat match goal with
  | H : BatchNormalization_call _ _ None _ = Ok _ |- _ =>
      apply BatchNormalization_call_frozen in H; [subst|done]
  | H : _Bottleneck.__call__ _ _ (Some false) _ = Ok _ |- _ =>
      apply Bottleneck_call_frozen in H; [subst|done]
  end.
  done.
Qed.

(** X3: at learning phase 0, a forward pass in inference mode that returns
    leaves the state of every layer exactly as it was, so that repeating it
    on the same input returns the same four tensors; this holds for every
    backend and every backbone record. *)
Theorem ResNet50_inference_repeatable (self : ResNet50.t) (x : Tensor)
    (st st' : Keras) (out : Tensor * Tensor * Tensor * Tensor) :
  learning_phase st = false →
  ResNet50.__call__ self x (Some false) st = Ok (out, st') →
  st' = st ∧ ResNet50.__call__ self x (Some false) st' = Ok (out, st').
Proof.
  intros Hlp Hcall.
  assert (st' = st) as -> by (by eapply ResNet50_call_frozen).
  done.
Qed.

Lemma Bottleneck_bn_names_NoDup (filters : Z * Z * Z) (block : string)
    (downsampling : bool) (stride : Z) :
  NoDup (Bottleneck_bn_names
           (_Bottleneck.__init__ filters block downsampling stride)).
Proof.
  destruct filters as [[filters1 filters2] filters3].
  unfold Bottleneck_bn_names, Bottleneck_layer_names, _Bottleneck.__init__,
    layers.Conv2D, layers.BatchNormalization.
  destruct downsampling; cbn.
  all: repeat (apply NoDup_cons; split);
    rewrite ?elem_of_cons, ?elem_of_nil; try apply NoDup_nil_2.
  all: intros Heq; repeat destruct Heq as [Heq|Heq]; try done.
  all: by apply (inj (String.app _)) in Heq.
Qed.

(** X4: a bottleneck unit that returns has, in training mode, folded exactly
    one batch into the statistics of each of its own normalization layers
    (three, or four with the projection) and none into any other layer; in
    inference mode, or called without the mode argument, it has left the
    state of every layer as it was, whatever the learning phase. *)
Theorem Bottleneck_running_statistics (filters : Z * Z * Z) (block : string)
    (downsampling : bool) (stride : Z) (x y : Tensor)
    (training : option bool) (st st' : Keras) :
  let self := _Bottleneck.__init__ filters block downsampling stride in
  _Bottleneck.__call__ self x training st = Ok (y, st') →
  if default false training
  then
    learning_phase st' = learning_phase st
    ∧ length (Bottleneck_bn_names self) = (if downsampling then 4 else 3)%nat
    ∧ ∀ name, ∃ batches,
        running_stats st' name = running_stats st name ++ batches
        ∧ length batches
          = if bool_decide (name ∈ Bottleneck_bn_names self)
            then 1%nat else 0%nat
  else st' = st.
Proof.
  intros self Hcall. destruct (default false training) eqn:Htr.
  - apply Bottleneck_call_grows in Hcall as [Hlp Hg]. rewrite Htr in Hg.
    split; [done|]. split.
    { subst self. destruct filters as [[? ?] ?]. by destruct downsampling. }
    intros name. destruct (Hg name) as (batches & Hb & Hl).
    exists batches. split; [done|]. rewrite Hl. case_bool_decide as Hin.
    + apply occurrences_NoDup; [apply Bottleneck_bn_names_NoDup|done].
    + by apply occurrences_not_elem_of.
  - by eapply Bottleneck_call_frozen.
Qed.
End frozen_statistics.

Lemma ResNet50_inference_repeatable_witness :
  ResNet50.__call__ ResNet50.__init__ [1; 33; 33; 3] (Some false) fresh
  = Ok (([1; 9; 9; 256], [1; 5; 5; 512], [1; 3; 3; 1024], [1; 2; 2; 2048]),
        fresh).
Proof.
  refine (proj2 (ResNet50_inference_repeatable (H := ShapeBackend)
                   ResNet50.__init__ [1; 33; 33; 3] fresh fresh _ eq_refl _)).
  vm_compute. reflexivity.
Defined.

Lemma Bottleneck_running_statistics_witness :
  ∃ y st',
    _Bottleneck.__call__ (_Bottleneck.__init__ (128, 128, 512) "3a" true 2)
      [2; 16; 16; 256] (Some true) fresh
    = Ok (y, st')
    ∧ (∃ batches,
         running_stats st' "bn3a_branch1"
         = running_stats fresh "bn3a_branch1" ++ batches
         ∧ length batches = 1%nat)
    ∧ (∃ batches,
         running_stats st' "bn3b_branch2a"
         = running_stats fresh "bn3b_branch2a" ++ batches
         ∧ length batches = 0%nat).
Proof.
  destruct (call_shape_projection 128 128 512 "3a" true 2 2 16 16 256
              (Some true) fresh) as [st' Hcall]; [done|lia..|].
  pose proof (Bottleneck_running_statistics (H := ShapeBackend)
                (128, 128, 512) "3a" true 2 _ _ (Some true) fresh st' Hcall)
    as (_ & _ & Hg).
  eexists _, st'. split; [exact Hcall|]. split.
  - exact (Hg "bn3a_branch1").
  - exact (Hg "bn3b_branch2a").
Defined.

(** ** Error and edge behaviour of shape inference *)

Lemma forallb_known_nonneg (dims : list Dimension) :
  forallb (λ d, match d with Some v => 0 <=? v | None => true end) dims = true
  ↔ Forall known_nonneg dims.
Proof.
  rewrite forallb_forall, Forall_forall. split.
  - intros Hd d Hin v ->. apply list_elem_of_In, Hd in Hin. lia.
  - intros Hd d Hin%list_elem_of_In. destruct d as [v|]; [|done].
    specialize (Hd _ Hin v eq_refl). lia.
Qed.

Lemma TensorShape_Raise (dims : list Dimension) :
  ¬ Forall known_nonneg dims → TensorShape dims = Raise ValueError.
Proof.
  intros Hd. unfold TensorShape. case_match eqn:Hf; [|done].
  by apply forallb_known_nonneg in Hf.
Qed.

Lemma TensorShape_cases (dims : list Dimension) :
  (Forall known_nonneg dims ∧ TensorShape dims = Ok dims)
  ∨ (¬ Forall known_nonneg dims ∧ TensorShape dims = Raise ValueError).
Proof.
  unfold TensorShape. case_match eqn:Hf.
  - left. split; [by apply forallb_known_nonneg|done].
  - right. split; [|done]. intros Hd%forallb_known_nonneg. congruence.
Qed.

(** X6: the backbone's shape inference returns exactly on the shapes that
    have four axes, a known height and width and no negative dimension; on
    any other shape it raises [TypeError] (four valid axes, height or width
    unknown) or [ValueError] (another number of axes, or a negative
    dimension), and no other exception. *)
Theorem ResNet50_compute_output_shape_domain (input_shape : list Dimension) :
  ((∃ shapes,
      ResNet50.compute_output_shape ResNet50.__init__ input_shape = Ok shapes)
   ↔ ∃ batch H W C,
       input_shape = [batch; Some H; Some W; C]
       ∧ Forall known_nonneg input_shape)
  ∧ ∀ e,
      ResNet50.compute_output_shape ResNet50.__init__ input_shape = Raise e →
      (e = TypeError ∧ length input_shape = 4%nat
       ∧ Forall known_nonneg input_shape)
      ∨ (e = ValueError
         ∧ (length input_shape ≠ 4%nat ∨ ¬ Forall known_nonneg input_shape)).
Proof.
  destruct (TensorShape_cases input_shape) as [[Hv Hts]|[Hv Hts]].
  - assert (length input_shape ≠ 4%nat →
            ResNet50.compute_output_shape ResNet50.__init__ input_shape
            = Raise ValueError) as Hrank.
    { intros Hlen. unfold ResNet50.compute_output_shape. rewrite Hts.
      by destruct input_shape as [|? [|? [|? [|? [|? ?]]]]]. }
    destruct (decide (length input_shape = 4%nat)) as [Hlen|Hlen].
    + destruct input_shape as [|batch [|H [|W [|C [|? ?]]]]]; try done.
      assert (known_nonneg batch ∧ known_nonneg H ∧ known_nonneg W
              ∧ known_nonneg C) as (Hb & HH & HW & HC).
      { by repeat match goal with
           | H : Forall _ (_ :: _) |- _ => apply Forall_cons in H as [? H]
           end. }
      destruct H as [h|], W as [w|].
      * rewrite ResNet50_compute_output_shape_Ok;
          [|done|done|by apply HH|by apply HW].
        split; [split; eauto 10|done].
      * match goal with |- context [ResNet50.compute_output_shape ?a ?b] =>
          assert (ResNet50.compute_output_shape a b = Raise TypeError) as ->
        end.
        { unfold ResNet50.compute_output_shape. by rewrite Hts. }
        split; [split; [intros [? [=]]|intros (?&?&?&?&[=]&_)]|].
        intros e [= <-]. by left.
      * match goal with |- context [ResNet50.compute_output_shape ?a ?b] =>
          assert (ResNet50.compute_output_shape a b = Raise TypeError) as ->
        end.
        { unfold ResNet50.compute_output_shape. by rewrite Hts. }
        split; [split; [intros [? [=]]|intros (?&?&?&?&[=]&_)]|].
        intros e [= <-]. by left.
      * match goal with |- context [ResNet50.compute_output_shape ?a ?b] =>
          assert (ResNet50.compute_output_shape a b = Raise TypeError) as ->
        end.
        { unfold ResNet50.compute_output_shape. by rewrite Hts. }
        split; [split; [intros [? [=]]|intros (?&?&?&?&[=]&_)]|].
        intros e [= <-]. by left.
    + rewrite (Hrank Hlen). split.
      * split; [intros [? [=]]|]. intros (?&?&?&?&->&_). done.
      * intros e [= <-]. right. split; [done|by left].
  - assert (ResNet50.compute_output_shape ResNet50.__init__ input_shape
            = Raise ValueError) as ->.
    { unfold ResNet50.compute_output_shape. by rewrite Hts. }
    split.
    + split; [intros [? [=]]|]. intros (?&?&?&?&_&?). done.
    + intros e [= <-]. right. split; [done|by right].
Qed.

Lemma insert_length_snoc {A} (x : A) (l : list A) (c v : A) :
  <[length (l ++ [c]) := v]> (x :: l ++ [c]) = x :: l ++ [v].
Proof.
  rewrite length_app. cbn [length].
  replace (length l + 1)%nat with (S (length l + 0)) by lia.
  change (x :: <[(length l + 0)%nat := v]> (l ++ [c]) = x :: l ++ [v]).
  by rewrite insert_app_r.
Qed.

(** X7: the unit's shape inference works on a shape of any rank from three
    up, whether or not the unit has a projection: it floor-divides axes 1
    and 2 by the stride, replaces the last axis by the third filter count and
    keeps every other axis; on a shape with exactly three axes the last axis
    is axis 2, whose quotient is overwritten. *)
Theorem Bottleneck_compute_output_shape_any_rank
    (filters1 filters2 filters3 : Z) (block : string) (downsampling : bool)
    (stride : Z) (d0 : Dimension) (h w : Z) :
  let self :=
    _Bottleneck.__init__ (filters1, filters2, filters3) block downsampling
      stride in
  0 < stride → 0 ≤ filters3 → known_nonneg d0 → 0 ≤ h → 0 ≤ w →
  _Bottleneck.compute_output_shape self [d0; Some h; Some w]
  = Ok [d0; Some (h `div` stride); Some filters3]
  ∧ ∀ middle c,
      Forall known_nonneg middle → known_nonneg c →
      _Bottleneck.compute_output_shape self
        (d0 :: Some h :: Some w :: middle ++ [c])
      = Ok (d0 :: Some (h `div` stride) :: Some (w `div` stride)
               :: middle ++ [Some filters3]).
Proof.
  intros self Hs Hf Hd Hh Hw.
  pose proof (Z.div_pos h stride Hh Hs) as Hh'.
  pose proof (Z.div_pos w stride Hw Hs) as Hw'.
  split.
  - unfold _Bottleneck.compute_output_shape.
    rewrite TensorShape_Ok
      by (repeat constructor; try done; by apply known_nonneg_Some).
    cbn -[TensorShape Z.div]. replace (stride =? 0) with false by lia.
    unfold setitem. cbn -[TensorShape Z.div].
    apply TensorShape_Ok.
    repeat constructor; try done; by apply known_nonneg_Some.
  - intros middle c Hm Hc.
    unfold _Bottleneck.compute_output_shape.
    rewrite TensorShape_Ok
      by (repeat constructor; try done; try (by apply known_nonneg_Some);
          apply Forall_app; by repeat constructor).
    cbn -[TensorShape Z.div]. replace (stride =? 0) with false by lia.
    unfold setitem. cbn -[TensorShape Z.div setitem_last].
    replace (<[length (middle ++ [c]) := Some filters3]>
               (Some (w `div` stride) :: middle ++ [c]))
      with (Some (w `div` stride) :: middle ++ [Some filters3])
      by (symmetry; apply insert_length_snoc).
    apply TensorShape_Ok.
    repeat constructor; try done; try (by apply known_nonneg_Some).
    apply Forall_app. split; [done|].
    repeat constructor. by apply known_nonneg_Some.
Qed.

Lemma Bottleneck_compute_output_shape_any_rank_witness :
  0 < 2 ∧ 0 ≤ 512 ∧ 0 ≤ 7 ∧
  _Bottleneck.compute_output_shape
    (_Bottleneck.__init__ (128, 128, 512) "3b" false 2)
    [None; Some 7; Some 9; Some 4; Some 256]
  = Ok [None; Some 3; Some 4; Some 4; Some 512].
Proof.
  split; [lia|]. split; [lia|]. split; [lia|].
  exact (proj2 (Bottleneck_compute_output_shape_any_rank 128 128 512 "3b"
                  false 2 None 7 9 ltac:(lia) ltac:(lia) ltac:(done)
                  ltac:(lia) ltac:(lia))
           [Some 4] (Some 256)
           ltac:(repeat constructor; by apply known_nonneg_Some)
           ltac:(by apply known_nonneg_Some)).
Defined.

(** X8: the unit's shape inference does not check the rank of its input
    and fails at the first line that cannot run.  For a unit with a positive
    stride, on a shape without negative dimension: a shape with no axis 1
    raises [IndexError]; an unknown axis 1 raises [TypeError], also on a
    shape of two axes only; a known axis 1 with no axis 2 raises
    [IndexError]; a known axis 1 with an unknown axis 2 raises [TypeError].
    A negative dimension in the input raises [ValueError], whatever the
    rank.  No other exception is raised. *)
Theorem Bottleneck_compute_output_shape_errors (self : _Bottleneck.t)
    (d0 : Dimension) (h : Z) (rest : list Dimension) :
  0 < _Bottleneck.stride self →
  _Bottleneck.compute_output_shape self [] = Raise IndexError
  ∧ (known_nonneg d0 →
     _Bottleneck.compute_output_shape self [d0] = Raise IndexError)
  ∧ (Forall known_nonneg (d0 :: rest) →
     _Bottleneck.compute_output_shape self (d0 :: None :: rest)
     = Raise TypeError)
  ∧ (known_nonneg d0 → 0 ≤ h →
     _Bottleneck.compute_output_shape self [d0; Some h] = Raise IndexError)
  ∧ (Forall known_nonneg (d0 :: Some h :: rest) →
     _Bottleneck.compute_output_shape self (d0 :: Some h :: None :: rest)
     = Raise TypeError)
  ∧ (∀ input_shape,
       ¬ Forall known_nonneg input_shape →
       _Bottleneck.compute_output_shape self input_shape = Raise ValueError)
  ∧ ∀ input_shape e,
      _Bottleneck.compute_output_shape self input_shape = Raise e →
      e = IndexError ∨ e = TypeError ∨ e = ValueError.
Proof.
  intros Hs. unfold _Bottleneck.compute_output_shape.
  assert ((_Bottleneck.stride self =? 0) = false) as Hs0 by lia.
  split; [done|]. split.
  { intros Hd. by rewrite TensorShape_Ok by by repeat constructor. }
  split.
  { intros Hv. rewrite TensorShape_Ok; [done|].
    apply Forall_cons in Hv as [? ?]. by repeat constructor. }
  split.
  { intros Hd Hh.
    rewrite TensorShape_Ok
      by (repeat constructor; try done; by apply known_nonneg_Some).
    cbn. by rewrite Hs0. }
  split.
  { intros Hv. rewrite TensorShape_Ok.
    - cbn. by rewrite Hs0.
    - apply Forall_cons in Hv as [? [? ?]%Forall_cons].
      by repeat constructor. }
  split.
  { intros input_shape Hv. by rewrite (TensorShape_Raise _ Hv). }
  intros input_shape e.
  destruct (TensorShape_cases input_shape) as [[_ ->]|[_ ->]];
    [|intros [= <-]; auto].
  destruct input_shape as [|d [|[a|] [|[b|] tl]]]; cbn -[TensorShape Z.div];
    rewrite ?Hs0; cbn -[TensorShape Z.div]; try (intros [= <-]; by auto).
  unfold setitem. cbn -[TensorShape Z.div].
  match goal with
  | |- TensorShape ?dims = _ → _ =>
      destruct (TensorShape_cases dims) as [[_ ->]|[_ ->]]
  end; [done|intros [= <-]; auto].
Qed.

Lemma Bottleneck_compute_output_shape_errors_witness :
  0 < 2 ∧
  _Bottleneck.compute_output_shape
    (_Bottleneck.__init__ (128, 128, 512) "3a" true 2) [Some 2; None]
  = Raise TypeError.
Proof.
  split; [lia|].
  refine (proj1 (proj2 (proj2
    (Bottleneck_compute_output_shape_errors
       (_Bottleneck.__init__ (128, 128, 512) "3a" true 2)
       (Some 2) 0 [] ltac:(cbn; lia)))) _).
  repeat constructor. by apply known_nonneg_Some.
Defined.

(** ** Shape inference of a unit against its forward pass *)

(** X9: a newly constructed unit with a projection shortcut, a positive
    stride and positive filter counts accepts every input tensor of shape
    [(N,H,W,C)] with positive [N], [H], [W] and [C], and its shape inference
    returns the shape of the result exactly when the stride divides [H] and
    [W] (it floor-divides where the strided convolutions round up). *)
Theorem Bottleneck_inference_agrees_iff {B : Backend} `{!Shaped B}
    (filters1 filters2 filters3 : Z) (block : string) (stride : Z)
    (x : Tensor) (n h w c : Z) (training : option bool) (st : Keras) :
  let self :=
    _Bottleneck.__init__ (filters1, filters2, filters3) block true stride in
  shape x = [n; h; w; c] →
  0 < stride → 0 < filters1 → 0 < filters2 → 0 < filters3 →
  0 < n → 0 < h → 0 < w → 0 < c →
  ∃ y st',
    _Bottleneck.__call__ self x training st = Ok (y, st')
    ∧ (_Bottleneck.compute_output_shape self (as_list (shape x))
       = Ok (as_list (shape y))
       ↔ h `mod` stride = 0 ∧ w `mod` stride = 0).
Proof.
  intros self Hx Hs Hf1 Hf2 Hf Hn Hh Hw Hc.
  destruct (call_shaped_projection filters1 filters2 filters3 block true
              stride x n h w c training st)
    as (y & st' & Hcall & Hy); [done || lia..|].
  exists y, st'. split; [exact Hcall|].
  rewrite Hx, Hy. cbn [as_list fmap list_fmap]. subst self.
  rewrite Bottleneck_compute_output_shape_Ok
    by (try apply known_nonneg_Some; lia).
  split.
  - intros [= Hh' Hw']. split; eapply ceil_div_floor_iff; (done || lia).
  - intros [Hh' Hw']. by rewrite !ceil_div_exact.
Qed.

Lemma Bottleneck_inference_agrees_iff_witness :
  0 < 2 ∧ 0 < 128 ∧ 0 < 512 ∧ 0 < 1 ∧ 0 < 9 ∧ 0 < 8 ∧ 0 < 256 ∧
  ∃ y st',
    _Bottleneck.__call__ (_Bottleneck.__init__ (128, 128, 512) "3a" true 2)
      [1; 9; 8; 256] None fresh
    = Ok (y, st')
    ∧ (_Bottleneck.compute_output_shape
         (_Bottleneck.__init__ (128, 128, 512) "3a" true 2)
         (as_list [1; 9; 8; 256])
       = Ok (as_list y)
       ↔ 9 `mod` 2 = 0 ∧ 8 `mod` 2 = 0).
Proof.
  do 7 (split; [lia|]).
  exact (Bottleneck_inference_agrees_iff (B := ShapeBackend) 128 128 512 "3a"
           2 [1; 9; 8; 256] 1 9 8 256 None fresh eq_refl
           ltac:(lia) ltac:(lia) ltac:(lia) ltac:(lia) ltac:(lia) ltac:(lia)
           ltac:(lia) ltac:(lia)).
Defined.

(** ** Configurations that the forward pass rejects *)

(** The sum of a main path and an input that differ in their channel counts,
    or in a height that the stride has shrunk. *)
Lemma broadcast_mismatch (n a b f h w c : Z) :
  (f ≠ c ∧ f ≠ 1 ∧ c ≠ 1) ∨ (a ≠ h ∧ a ≠ 1 ∧ h ≠ 1) →
  broadcast [n; a; b; f] [n; h; w; c] = Raise InvalidArgumentError.
Proof.
  intros Hne. unfold broadcast. cbn. rewrite !Z.eqb_refl. cbn.
  repeat case_match; cbn; try done; lia.
Qed.

Lemma bind_Raise `{Backend} {A C} (m : M A) (f : A → M C) st e :
  m st = Raise e → (x ← m; f x) st = Raise e.
Proof. intros Hm. unfold_M. by rewrite Hm. Qed.

Section rejected_configurations.
Context {B : Backend} `{!Shaped B}.

Lemma sim_Raise_r {A A'} (R : A → A' → Prop) (m : @M B A)
    (m' : @M ShapeBackend A') st e :
  sim R m m' → m' (shape_state st) = Raise e → m st = Raise e.
Proof.
  intros Hsim Hm'. specialize (Hsim st). rewrite Hm' in Hsim.
  destruct (m st) as [[a st1]|e']; [done|]. by subst.
Qed.

(** X11: a unit without projection shortcut adds its input to the main path
    as it is; the call raises [InvalidArgumentError] when the input's channel
    count differs from the third filter count (neither being 1), and when the
    unit has a stride of 2 or more and the input is higher than the
    stride. *)
Theorem Bottleneck_misconfigured_raises
    (filters1 filters2 filters3 : Z) (block : string) (stride : Z)
    (x : Tensor) (n h w c : Z) (training : option bool) (st : Keras) :
  let self :=
    _Bottleneck.__init__ (filters1, filters2, filters3) block false stride in
  shape x = [n; h; w; c] → 0 < stride → 0 ≤ h → 0 ≤ w →
  (c ≠ filters3 ∧ c ≠ 1 ∧ filters3 ≠ 1) ∨ (1 < stride ∧ stride < h) →
  _Bottleneck.__call__ self x training st = Raise InvalidArgumentError.
Proof.
  intros self Hx Hs Hh Hw Hbad.
  eapply sim_Raise_r; [by apply (sim_Bottleneck_call self x (shape x))|].
  rewrite Hx. subst self. rewrite call_unfold.
  destruct (branches_shape filters1 filters2 filters3 block false stride
              n h w c (default _Bottleneck.training_default training)
              (shape_state st)) as [st1 ->]; [done..|].
  rewrite broadcast_mismatch; [done|].
  destruct Hbad as [(?&?&?)|[Hs1 Hsh]]; [left; by repeat split|right].
  pose proof (ceil_div_spec h stride Hs). nia.
Qed.
End rejected_configurations.

Lemma Bottleneck_misconfigured_raises_witness :
  0 < 1 ∧ 0 ≤ 56 ∧
  _Bottleneck.__call__ (_Bottleneck.__init__ (64, 64, 256) "2a" false 1)
    [2; 56; 56; 64] None fresh
  = Raise InvalidArgumentError.
Proof.
  split; [lia|]. split; [lia|].
  refine (Bottleneck_misconfigured_raises (B := ShapeBackend) 64 64 256 "2a" 1
            [2; 56; 56; 64] 2 56 56 64 None fresh eq_refl
            ltac:(lia) ltac:(lia) ltac:(lia) _).
  left. lia.
Defined.

(** ** Layer names for any block identifier *)

Lemma list_ascii_of_string_app (s t : string) :
  String.list_ascii_of_string (s +:+ t)
  = String.list_ascii_of_string s ++ String.list_ascii_of_string t.
Proof.
  induction s as [|ch s IH]; [done|].
  change (ch :: String.list_ascii_of_string (s +:+ t)
          = ch :: String.list_ascii_of_string s
               ++ String.list_ascii_of_string t).
  by rewrite IH.
Qed.

Lemma list_ascii_of_string_inj (s t : string) :
  String.list_ascii_of_string s = String.list_ascii_of_string t → s = t.
Proof.
  intros Heq. rewrite <- (String.string_of_list_ascii_of_string s),
    <- (String.string_of_list_ascii_of_string t). by rewrite Heq.
Qed.

(** Two names built from a prefix, a block identifier and a suffix: compare
    them from the front, then from the back. *)
Ltac compare_names Heq :=
  apply (f_equal String.list_ascii_of_string) in Heq;
  rewrite !list_ascii_of_string_app in Heq;
  cbn [String.list_ascii_of_string] in Heq;
  rewrite <- !app_assoc in Heq; cbn [app] in Heq;
  simplify_eq;
  apply (f_equal reverse) in Heq;
  rewrite !reverse_app in Heq;
  cbn in Heq; simplify_eq.

Lemma name_determines_block (p p' b b' t t' : string) :
  p ∈ ["res"; "bn"] → p' ∈ ["res"; "bn"] →
  t ∈ ["2a"; "2b"; "2c"; "1"] → t' ∈ ["2a"; "2b"; "2c"; "1"] →
  ((p +:+ b) +:+ "_branch") +:+ t = ((p' +:+ b') +:+ "_branch") +:+ t' →
  p = p' ∧ b = b' ∧ t = t'.
Proof.
  rewrite !elem_of_cons, !elem_of_nil. intros Hp Hp' Ht Ht' Heq.
  destruct Hp as [->|[->|[]]], Hp' as [->|[->|[]]],
    Ht as [->|[->|[->|[->|[]]]]], Ht' as [->|[->|[->|[->|[]]]]].
  all: compare_names Heq.
  all: apply list_ascii_of_string_inj in Heq; by subst.
Qed.

Lemma Bottleneck_names_scheme (filters : Z * Z * Z) (b : string)
    (downsampling : bool) (stride : Z) (name : string) :
  name ∈ Bottleneck_names (_Bottleneck.__init__ filters b downsampling stride) →
  ∃ p t, p ∈ ["res"; "bn"] ∧ t ∈ ["2a"; "2b"; "2c"; "1"]
         ∧ name = ((p +:+ b) +:+ "_branch") +:+ t.
Proof.
  destruct filters as [[filters1 filters2] filters3].
  unfold Bottleneck_names, Bottleneck_layer_names, _Bottleneck.__init__,
    layers.Conv2D, layers.BatchNormalization.
  destruct downsampling; cbn; rewrite !elem_of_cons, elem_of_nil.
  all: intros Hin; repeat destruct Hin as [->|Hin]; try done.
  all: eexists _, _; split; [|split; [|reflexivity]];
    rewrite !elem_of_cons; auto 10.
Qed.

(** X12: for every block identifier, the layer names that [__init__] gives a
    unit (six, or eight with the projection) are pairwise distinct, and a
    layer name determines the block identifier: two units share a layer name
    only if they were built with the same identifier. *)
Theorem layer_names_never_collide (filters filters' : Z * Z * Z)
    (b b' : string) (downsampling downsampling' : bool)
    (stride stride' : Z) :
  let self := _Bottleneck.__init__ filters b downsampling stride in
  let other := _Bottleneck.__init__ filters' b' downsampling' stride' in
  NoDup (Bottleneck_names self)
  ∧ length (Bottleneck_names self) = (if downsampling then 8 else 6)%nat
  ∧ ∀ name,
      name ∈ Bottleneck_names self → name ∈ Bottleneck_names other → b = b'.
Proof.
  intros self other. split; [|split].
  - subst self. destruct filters as [[filters1 filters2] filters3].
    unfold Bottleneck_names, Bottleneck_layer_names, _Bottleneck.__init__,
      layers.Conv2D, layers.BatchNormalization.
    destruct downsampling; cbn.
    all: repeat (apply NoDup_cons; split);
      rewrite ?elem_of_cons, ?elem_of_nil; try apply NoDup_nil_2.
    all: intros Heq; repeat destruct Heq as [Heq|Heq]; try done.
    all: apply name_determines_block in Heq as (? & _ & ?);
      [done|rewrite !elem_of_cons; auto 10..].
  - subst self. destruct filters as [[? ?] ?]. by destruct downsampling.
  - intros name Hself Hother.
    apply Bottleneck_names_scheme in Hself as (p & t & Hp & Ht & ->).
    apply Bottleneck_names_scheme in Hother as (p' & t' & Hp' & Ht' & Heq).
    by apply name_determines_block in Heq as (_ & ? & _).
Qed.

(** ** Shape inference of the backbone against that of its units *)

(** X13: the shapes that the backbone's shape inference returns are
    consistent with the shape inference of its units: feeding the inferred
    shape of C2 through the units of stage 3 gives the inferred shape of C3,
    that one through stage 4 gives C4, and that one through stage 5 gives
    C5. *)
Theorem compute_output_shape_chains (batch C : Dimension) (H W : Z) :
  known_nonneg batch → known_nonneg C → 0 ≤ H → 0 ≤ W →
  ∃ C2_shape C3_shape C4_shape C5_shape,
    ResNet50.compute_output_shape ResNet50.__init__
      [batch; Some H; Some W; C]
    = Ok (C2_shape, C3_shape, C4_shape, C5_shape)
    ∧ chain_compute_output_shape (ResNet50_stage3 ResNet50.__init__) C2_shape
      = Ok C3_shape
    ∧ chain_compute_output_shape (ResNet50_stage4 ResNet50.__init__) C3_shape
      = Ok C4_shape
    ∧ chain_compute_output_shape (ResNet50_stage5 ResNet50.__init__) C4_shape
      = Ok C5_shape.
Proof.
  intros Hb HC HH HW.
  rewrite ResNet50_compute_output_shape_Ok by done.
  eexists _, _, _, _. split; [reflexivity|].
  assert (∀ k, 0 < k → 0 ≤ H `div` k ∧ 0 ≤ W `div` k) as Hpos.
  { intros k Hk. split; apply Z.div_pos; lia. }
  destruct (Hpos 4 ltac:(lia)), (Hpos 8 ltac:(lia)), (Hpos 16 ltac:(lia)),
    (Hpos 32 ltac:(lia)).
  unfold chain_compute_output_shape, ResNet50_stage3, ResNet50_stage4,
    ResNet50_stage5.
  cbn [foldl ResNet50.__init__
       ResNet50.res3a ResNet50.res3b ResNet50.res3c ResNet50.res3d
       ResNet50.res4a ResNet50.res4b ResNet50.res4c ResNet50.res4d
       ResNet50.res4e ResNet50.res4f
       ResNet50.res5a ResNet50.res5b ResNet50.res5c].
  unfold _Bottleneck.downsampling_default, _Bottleneck.stride_default.
  repeat split.
  all: repeat (
    first [ rewrite Bottleneck_compute_output_shape_Ok
              by (try apply known_nonneg_Some; lia || done)
          | progress (rewrite ?Z.div_1_r, ?Zdiv.Zdiv_Zdiv by lia)
          | progress (cbn [mbind result_bind]) ]).
  all: reflexivity.
Qed.

Lemma compute_output_shape_chains_witness :
  0 ≤ 100 ∧
  chain_compute_output_shape (ResNet50_stage4 ResNet50.__init__)
    [None; Some 12; Some 12; Some 512]
  = Ok [None; Some 6; Some 6; Some 1024].
Proof.
  split; [lia|].
  destruct (compute_output_shape_chains None (Some 3) 100 100)
    as (c2 & c3 & c4 & c5 & Hr & _ & H4 & _);
    [done | by apply known_nonneg_Some | lia | lia |].
  vm_compute in Hr. injection Hr as <- <- <- <-. exact H4.
Defined.
